(** * Smart Expense Tracker API: process lifecycle and request authentication

    A shallow embedding of the Express entry point [index.js] (environment
    handling, health and root routes, the global error handler, the MongoDB
    connection loop with retry, graceful shutdown) and of the protected router
    [src/routes/protected.js].

    JavaScript values are an inductive type; [process.env] is a record of the
    variables the program reads; handlers are functions from a request to a
    step of the Express pipeline; asynchronous code is written in a small
    state/exception/exit monad over a process state that carries the clock,
    the pending timers and the trace of observable actions. *)

From Stdlib Require Import ZArith List String Ascii Bool Lia.
From Stdlib Require Import DecimalString.
Import ListNotations.

Local Open Scope string_scope.
Local Open Scope Z_scope.
Local Open Scope list_scope.

Local Set Warnings "-register-all".

(* ================================================================= *)
(** ** JavaScript values *)

Module Js.

Inductive value : Type :=
| Undefined
| Bool (b : bool)
| Num (z : Z)
| Str (s : string)
| Obj (fields : list (string * value)).

(** [String(v)], as used by template literals. *)
Definition toString (v : value) : string :=
  match v with
  | Undefined => "undefined"
  | Bool true => "true"
  | Bool false => "false"
  | Num z => NilZero.string_of_int (Z.to_int z)
  | Str s => s
  | Obj _ => "[object Object]"
  end.

(** Truthiness of a possibly undefined string (an environment variable,
    a message): [undefined] and the empty string are falsy. *)
Definition truthy (o : option string) : bool :=
  match o with
  | Some s => negb (String.eqb s "")
  | None => false
  end.

(** [o || d] for a possibly undefined string [o]. *)
Definition orElse {A : Type} (inj : string -> A) (o : option string) (d : A) : A :=
  match o with
  | Some s => if String.eqb s "" then d else inj s
  | None => d
  end.

Definition isUndefined (v : value) : bool :=
  match v with Undefined => true | _ => false end.

(** [JSON.stringify] drops the properties whose value is [undefined]. *)
Definition object (fields : list (string * value)) : value :=
  Obj (filter (fun kv => negb (isUndefined (snd kv))) fields).

Definition ofOption (o : option string) : value :=
  match o with Some s => Str s | None => Undefined end.

Definition keys (v : value) : list string :=
  match v with Obj fs => map fst fs | _ => [] end.

Fixpoint assoc (k : string) (fs : list (string * value)) : value :=
  match fs with
  | [] => Undefined
  | (k', v) :: rest => if String.eqb k k' then v else assoc k rest
  end.

(** Property read [v.k]. *)
Definition get (v : value) (k : string) : value :=
  match v with Obj fs => assoc k fs | _ => Undefined end.

End Js.

(* ================================================================= *)
(** ** The environment and the runtime *)

(** The variables of [process.env] that the program reads. *)
Record ProcessEnv : Type := mkEnv {
  PORT_var : option string;
  NODE_ENV : option string;
  MONGO_URI : option string;
  CLIENT_URL : option string;
  npm_package_version : option string
}.

(** What the runtime answers when a handler asks it: [new Date().toISOString()],
    [process.uptime()] (kept in whole seconds) and the [stack] of an [Error]
    created now. *)
Record Runtime : Type := mkRuntime {
  dateISO : string;
  uptime : Z;
  errorStack : string
}.

(** [const PORT = process.env.PORT || 5001;] *)
Definition PORT (env : ProcessEnv) : Js.value :=
  Js.orElse Js.Str (PORT_var env) (Js.Num 5001).

(** [process.env.NODE_ENV || "development"] *)
Definition environmentName (env : ProcessEnv) : string :=
  Js.orElse (fun s => s) (NODE_ENV env) "development".

(** [process.env.NODE_ENV === "production"] *)
Definition isProduction (env : ProcessEnv) : bool :=
  match NODE_ENV env with
  | Some s => String.eqb s "production"
  | None => false
  end.

(* ================================================================= *)
(** ** Requests, responses and the Express pipeline *)

Record Request : Type := mkRequest {
  method : string;
  path : string;
  headers : list (string * string);
  user : Js.value            (* [req.user], undefined until a middleware sets it *)
}.

Record Response : Type := mkResponse {
  statusCode : Z;
  body : Js.value
}.

(** An error object travelling through [next(error)]. *)
Record JsError : Type := mkError {
  status : option Z;
  message : option string;
  stack : option string
}.

(** What a handler does with a request: it answers, passes the request on,
    or passes an error on. *)
Inductive Step : Type :=
| Respond (r : Response)
| Next (req : Request)
| NextErr (e : JsError).

Definition Handler : Type := Request -> Step.

(** A fresh [res]: Express answers 200 unless [res.status] is called. *)
Definition res : Response := mkResponse 200 Js.Undefined.

Definition setStatus (code : Z) (r : Response) : Response :=
  mkResponse code (body r).

Definition json (v : Js.value) (r : Response) : Response :=
  mkResponse (statusCode r) v.

(** A route is a list of named handlers run in order; the names of the
    handlers that ran are returned with the final step. *)
Fixpoint runChain (hs : list (string * Handler)) (req : Request)
  : list string * Step :=
  match hs with
  | [] => ([], Next req)
  | (name, h) :: rest =>
      match h req with
      | Next req' =>
          let (ran, s) := runChain rest req' in (name :: ran, s)
      | s => ([name], s)
      end
  end.

Fixpoint header (name : string) (hs : list (string * string)) : option string :=
  match hs with
  | [] => None
  | (k, v) :: rest => if String.eqb k name then Some v else header name rest
  end.

(** [app.use(base, router)]: the router sees the path with [base] removed. *)
Definition mounted (base p : string) : option string :=
  if String.eqb p base then Some "/"
  else if String.prefix (base ++ "/")%string p
       then Some (String.substring (String.length base)
                                   (String.length p - String.length base) p)
       else None.

Definition isGet (req : Request) (p : string) : bool :=
  String.eqb (method req) "GET" && String.eqb (path req) p.

(* ================================================================= *)
(** ** Route handlers of [index.js] *)

Section Routes.

Variable env : ProcessEnv.
Variable rt : Runtime.

(** [app.get("/health", ...)] *)
Definition health : Handler := fun _ =>
  Respond (json (Js.object
    [ ("status", Js.Str "healthy");
      ("timestamp", Js.Str (dateISO rt));
      ("uptime", Js.Num (uptime rt));
      ("environment", Js.Str (environmentName env)) ])
    (setStatus 200 res)).

(** [app.get("/", ...)] *)
Definition root : Handler := fun _ =>
  Respond (json (Js.object
    [ ("message", Js.Str ("Smart Expense Tracker API is running on port "
                          ++ Js.toString (PORT env))%string);
      ("status", Js.Str "success");
      ("version", Js.Str (Js.orElse (fun s => s) (npm_package_version env) "1.0.0"));
      ("environment", Js.Str (environmentName env)) ])
    (setStatus 200 res)).

(** The 404 handler: every request that reaches it becomes an error. *)
Definition notFound : Handler := fun req =>
  NextErr (mkError (Some 404)
                   (Some ("Route not found: " ++ method req ++ " " ++ path req)%string)
                   (Some (errorStack rt))).

(** [error.status || 500]: an undefined or zero status is falsy. *)
Definition statusOr500 (e : JsError) : Z :=
  match status e with
  | Some c => if c =? 0 then 500 else c
  | None => 500
  end.

(** The global error handler. *)
Definition errorHandler (e : JsError) : Response :=
  let isDevelopment := negb (isProduction env) in
  json (Js.object
    ([ ("success", Js.Bool false);
       ("error", if isDevelopment then Js.ofOption (message e)
                 else Js.Str "Internal Server Error") ]
     ++ (if isDevelopment then [("stack", Js.ofOption (stack e))] else [])))
    (setStatus (statusOr500 e) res).

(** The error handler of the two shorter variants of the entry point
    ([error.message || "Internal Server Error"], no look at the environment). *)
Definition errorHandlerVariant (e : JsError) : Response :=
  json (Js.object
    [ ("success", Js.Bool false);
      ("error", Js.Str (Js.orElse (fun s => s) (message e) "Internal Server Error")) ])
    (setStatus (statusOr500 e) res).

End Routes.

(* ================================================================= *)
(** ** The protected router, [src/routes/protected.js] *)

(** The route handler behind the [auth] middleware. *)
Definition protectedHandler : Handler := fun req =>
  Respond (json (Js.object
    [ ("message", Js.Str "This is protected data accessible only with valid token");
      ("userId", user req) ])
    res).

Inductive AuthError : Type := Missing | Invalid.

Inductive Result (A E : Type) : Type :=
| Ok (a : A)
| Err (e : E).
Arguments Ok {A E} a.
Arguments Err {A E} e.

Section Auth.

(** The token-verification library: the identity a token encodes (an opaque
    identifier), if the token passes the signature and expiry checks. *)
Variable verifyToken : string -> option string.

(** The bearer scheme of the [Authorization] header. *)
Definition bearerToken (credential : string) : option string :=
  if String.prefix "Bearer " credential
  then Some (String.substring 7 (String.length credential - 7) credential)
  else None.

(** Modelled from the spec: the middleware [src/middleware/auth.js] is not
    among the sources. [verify] fails with [Missing] when the credential is
    absent, with [Invalid] when it is present but malformed or rejected by
    the verification library, and otherwise returns the identity. *)
Definition verify (credential : option string) : Result string AuthError :=
  match credential with
  | None => Err Missing
  | Some c =>
      match bearerToken c with
      | None => Err Invalid
      | Some tok =>
          match verifyToken tok with
          | Some id => Ok id
          | None => Err Invalid
          end
      end
  end.

Definition authErrorKind (e : AuthError) : string :=
  match e with
  | Missing => "missing credential"
  | Invalid => "invalid credential"
  end.

(** Modelled from the spec: on failure the middleware answers 401 with a
    structured error body and does not call [next]; on success it attaches
    the identity to the request and lets it proceed. *)
Definition auth : Handler := fun req =>
  match verify (header "authorization" (headers req)) with
  | Ok id => Next (mkRequest (method req) (path req) (headers req) (Js.Str id))
  | Err e =>
      Respond (json (Js.object [ ("success", Js.Bool false);
                                 ("error", Js.Str (authErrorKind e)) ])
                    (setStatus 401 res))
  end.

(** [router.get("/protected", auth, handler)] *)
Definition protectedRoute : list (string * Handler) :=
  [ ("auth", auth); ("protected", protectedHandler) ].

Definition protectedRoutes (req : Request) : list string * Step :=
  if isGet req "/protected" then runChain protectedRoute req
  else ([], Next req).

End Auth.

(* ================================================================= *)
(** ** The application: routes in registration order *)

Section App.

Variable env : ProcessEnv.
Variable rt : Runtime.
Variable verifyToken : string -> option string.

(** The router [src/routes/auth.js] issues credentials; it is a collaborator
    of this development and is only assumed to be a handler. *)
Variable authRoutes : Handler.

Definition withPath (p : string) (req : Request) : Request :=
  mkRequest (method req) p (headers req) (user req).

(** [app.get(p, h)] *)
Definition route (p : string) (h : Handler) : Handler := fun req =>
  if isGet req p then h req else Next req.

(** [app.use(base, router)] *)
Definition use (base : string) (router : Handler) : Handler := fun req =>
  match mounted base (path req) with
  | Some p =>
      match router (withPath p req) with
      | Next req' => Next (withPath (path req) req')
      | s => s
      end
  | None => Next req
  end.

(** The CORS, static-file, body-parsing and logging middlewares come first
    and pass the request on; the routes follow in the order of the source. *)
Definition layers : list (string * Handler) :=
  [ ("health", route "/health" (health env rt));
    ("root", route "/" (root env));
    ("authRoutes", use "/api/auth" authRoutes);
    ("protectedRoutes", use "/api" (fun req => snd (protectedRoutes verifyToken req)));
    ("notFound", notFound rt) ].

(** Express's own last resort, reached only if every handler passes. *)
Definition finalHandler (req : Request) : Response :=
  mkResponse 404 (Js.Str ("Cannot " ++ method req ++ " " ++ path req)%string).

Definition app (req : Request) : Response :=
  match snd (runChain layers req) with
  | Respond r => r
  | NextErr e => errorHandler env e
  | Next req' => finalHandler req'
  end.

End App.

(* ================================================================= *)
(** ** The process: clock, timers and trace *)

(** The lines the program writes to the console. *)
Inductive Msg : Type :=
| MongoConnected
| ConnectionError (retries : Z) (err : string)
| Retrying
| RetriesExhausted
| ShutdownStarted (signal : string)
| HttpServerClosed
| MongoConnectionClosed
| ShutdownCompleted
| ShutdownError (err : string)
| ServerStarted (port : Js.value).

(** The numbered steps of [gracefulShutdown]; a suspended shutdown keeps
    the steps that remain. *)
Inductive ShutdownStep : Type :=
| StopServer
| CloseDatabase
| Complete.

(** What the event loop may run later. *)
Inductive Callback : Type :=
| RetryConnect (retries : Z)
    (* the timer callback [() => connectToMongoDB(retries - 1)] *)
| ConnectSettled (retries : Z) (rejection : option string)
    (* [connectToMongoDB(retries)] resumes after [await mongoose.connect] *)
| RequestDone (id : nat)
    (* a request that was being served finishes *)
| ServerClosed (err : option string) (rest : list ShutdownStep)
    (* the callback given to [server.close] *)
| ConnectionClosed (err : option string) (rest : list ShutdownStep)
    (* [gracefulShutdown] resumes after [await mongoose.connection.close] *)
| Listening.
    (* the callback given to [app.listen] *)

(** Observable actions, recorded with the time at which they happen. *)
Inductive Action : Type :=
| Log (m : Msg)
| LogError (m : Msg)
| Enter (retries : Z)                 (* [connectToMongoDB(retries)] is entered *)
| MongooseConnect (uri : string)
| SetTimeout (cb : Callback) (ms : Z)
| Listen (port : Js.value) (host : string)
| ServerClose
| RequestCompleted (id : nat)
| ConnectionClose (force : bool)
| Exit (code : Z).

Record State : Type := mkState {
  clock : Z;                          (* milliseconds *)
  timers : list (Z * Callback);       (* pending callbacks with their due time *)
  trace : list (Z * Action);
  exited : option Z;                  (* the exit code, once [process.exit] ran *)
  connects : nat;                     (* calls of [mongoose.connect] so far *)
  readyState : Z;                     (* [mongoose.connection.readyState] *)
  listening : bool                    (* [server.listening] *)
}.

(** The collaborators of the process: its environment and what the driver
    and the HTTP server answer. *)
Record World : Type := mkWorld {
  env : ProcessEnv;
  connectResult : nat -> option string * Z;
    (* the n-th [mongoose.connect]: its rejection, if any, and how long it takes *)
  serverCloseResult : option string;
  connectionCloseResult : option string * Z
}.

Inductive Outcome (A : Type) : Type :=
| Done (a : A)
| Thrown (err : string)
| Halted.
Arguments Done {A} a.
Arguments Thrown {A} err.
Arguments Halted {A}.

(** Computations over the process state that may throw or exit. *)
Definition M (A : Type) : Type := State -> Outcome A * State.

Definition ret {A : Type} (a : A) : M A := fun st => (Done a, st).

Definition bind {A B : Type} (m : M A) (k : A -> M B) : M B := fun st =>
  match m st with
  | (Done a, st') => k a st'
  | (Thrown e, st') => (Thrown e, st')
  | (Halted, st') => (Halted, st')
  end.

Notation "x <- m ;; k" := (bind m (fun x => k))
  (at level 61, m at next level, right associativity).
Notation "m ;; k" := (bind m (fun _ => k))
  (at level 61, right associativity).

Definition throw {A : Type} (err : string) : M A := fun st => (Thrown err, st).

Definition tryCatch {A : Type} (m : M A) (handler : string -> M A) : M A := fun st =>
  match m st with
  | (Thrown e, st') => handler e st'
  | r => r
  end.

Definition get : M State := fun st => (Done st, st).

Definition emit (a : Action) : M unit := fun st =>
  (Done tt, mkState (clock st) (timers st) (trace st ++ [(clock st, a)])
                    (exited st) (connects st) (readyState st) (listening st)).

Definition log (m : Msg) : M unit := emit (Log m).
Definition logError (m : Msg) : M unit := emit (LogError m).

Definition setReadyState (r : Z) : M unit := fun st =>
  (Done tt, mkState (clock st) (timers st) (trace st) (exited st)
                    (connects st) r (listening st)).

Definition setListening (b : bool) : M unit := fun st =>
  (Done tt, mkState (clock st) (timers st) (trace st) (exited st)
                    (connects st) (readyState st) b).

Definition countConnect : M nat := fun st =>
  (Done (connects st),
   mkState (clock st) (timers st) (trace st) (exited st)
           (S (connects st)) (readyState st) (listening st)).

(** [process.exit(code)]: nothing of the program runs afterwards. *)
Definition exit {A : Type} (code : Z) : M A := fun st =>
  (Halted, mkState (clock st) (timers st) (trace st ++ [(clock st, Exit code)])
                   (Some code) (connects st) (readyState st) (listening st)).

(** Timers are kept in firing order; a new one goes behind those that are
    due no later. *)
Fixpoint insertTimer (due : Z) (cb : Callback) (ts : list (Z * Callback))
  : list (Z * Callback) :=
  match ts with
  | [] => [(due, cb)]
  | (d, c) :: rest =>
      if d <=? due then (d, c) :: insertTimer due cb rest
      else (due, cb) :: ts
  end.

Definition schedule (due : Z) (cb : Callback) : M unit := fun st =>
  (Done tt, mkState (clock st) (insertTimer due cb (timers st)) (trace st)
                    (exited st) (connects st) (readyState st) (listening st)).

(** [setTimeout(cb, ms)] returns at once. *)
Definition setTimeout (cb : Callback) (ms : Z) : M unit :=
  emit (SetTimeout cb ms) ;;
  st <- get ;;
  schedule (clock st + ms) cb.

Definition isRequest (t : Z * Callback) : bool :=
  match snd t with RequestDone _ => true | _ => false end.

(** The moment the last request in flight finishes. *)
Definition drainTime (st : State) : Z :=
  fold_left Z.max (map fst (filter isRequest (timers st))) (clock st).

(* ================================================================= *)
(** ** Connection with retry, graceful shutdown, and the event loop *)

Section Lifecycle.

Variable w : World.

(** The [catch] block of [connectToMongoDB]. *)
Definition connectFailed (retries : Z) (err : string) : M unit :=
  logError (ConnectionError retries err) ;;
  if retries >? 0 then
    log Retrying ;;
    setTimeout (RetryConnect retries) 5000
  else
    logError RetriesExhausted ;;
    if negb (isProduction (env w)) then exit 1 else ret tt.

(** [connectToMongoDB(retries)] up to its [await]: a missing URI is thrown
    and caught on the spot; otherwise [mongoose.connect] is called and the
    function is resumed by [ConnectSettled] when the driver answers. *)
Definition connectToMongoDB (retries : Z) : M unit :=
  emit (Enter retries) ;;
  tryCatch
    (match MONGO_URI (env w) with
     | Some mongoUri =>
         if String.eqb mongoUri "" then
           throw "MONGO_URI environment variable is not set"
         else
           emit (MongooseConnect mongoUri) ;;
           setReadyState 2 ;;
           n <- countConnect ;;
           st <- get ;;
           schedule (clock st + snd (connectResult w n))
                    (ConnectSettled retries (fst (connectResult w n)))
     | None => throw "MONGO_URI environment variable is not set"
     end)
    (connectFailed retries).

(** The rest of [connectToMongoDB(retries)], after the [await]. *)
Definition connectSettled (retries : Z) (rejection : option string) : M unit :=
  match rejection with
  | None => setReadyState 1 ;; log MongoConnected
  | Some err => setReadyState 0 ;; connectFailed retries err
  end.

(** The [catch] block of [gracefulShutdown]. *)
Definition shutdownFailed (err : string) : M unit :=
  logError (ShutdownError err) ;;
  exit 1.

(** The [try] block of [gracefulShutdown], from a given step on. A step
    that awaits leaves the remaining steps to the callback that resumes it. *)
Fixpoint shutdownFrom (steps : list ShutdownStep) : M unit :=
  match steps with
  | [] => ret tt
  | StopServer :: rest =>
      st <- get ;;
      if listening st then
        emit ServerClose ;;
        setListening false ;;
        schedule (drainTime st) (ServerClosed (serverCloseResult w) rest)
      else shutdownFrom rest
  | CloseDatabase :: rest =>
      st <- get ;;
      if negb (readyState st =? 0) then
        emit (ConnectionClose false) ;;
        setReadyState 3 ;;
        schedule (clock st + snd (connectionCloseResult w))
                 (ConnectionClosed (fst (connectionCloseResult w)) rest)
      else shutdownFrom rest
  | Complete :: _ =>
      log ShutdownCompleted ;;
      exit 0
  end.

Definition gracefulShutdown (signal : string) : M unit :=
  log (ShutdownStarted signal) ;;
  shutdownFrom [StopServer; CloseDatabase; Complete].

(** [["SIGTERM", "SIGINT"].forEach((sig) => process.on(sig, ...))] *)
Definition signals : list string := ["SIGTERM"; "SIGINT"].

Definition signalHandlers : list (string * M unit) :=
  map (fun sig => (sig, gracefulShutdown sig)) signals.

Fixpoint handlerOf (sig : string) (hs : list (string * M unit)) : option (M unit) :=
  match hs with
  | [] => None
  | (s, h) :: rest => if String.eqb s sig then Some h else handlerOf sig rest
  end.

(** Delivery of a signal to the running process; a signal without a
    listener is left to the operating system. *)
Definition deliver (sig : string) (st : State) : State :=
  match exited st, handlerOf sig signalHandlers with
  | None, Some h => snd (h st)
  | _, _ => st
  end.

(** Running a callback taken from the queue. *)
Definition fire (cb : Callback) : M unit :=
  match cb with
  | RetryConnect retries => connectToMongoDB (retries - 1)
  | ConnectSettled retries rejection => connectSettled retries rejection
  | RequestDone id => emit (RequestCompleted id)
  | ServerClosed None rest => log HttpServerClosed ;; shutdownFrom rest
  | ServerClosed (Some err) _ => shutdownFailed err
  | ConnectionClosed None rest =>
      setReadyState 0 ;; log MongoConnectionClosed ;; shutdownFrom rest
  | ConnectionClosed (Some err) _ => shutdownFailed err
  | Listening => log (ServerStarted (PORT (env w)))
  end.

(** The clock moves to the due time of the callback about to run. *)
Definition tick (due : Z) (rest : list (Z * Callback)) (st : State) : State :=
  mkState (Z.max (clock st) due) rest (trace st) (exited st)
          (connects st) (readyState st) (listening st).

(** The event loop: callbacks run one at a time, in firing order, until
    none is pending or the process has exited. *)
Fixpoint run (fuel : nat) (st : State) : State :=
  match fuel with
  | O => st
  | S fuel' =>
      match exited st, timers st with
      | None, (due, cb) :: rest => run fuel' (snd (fire cb (tick due rest st)))
      | _, _ => st
      end
  end.

(** The loop has nothing left to do. *)
Definition quiescent (st : State) : bool :=
  match exited st, timers st with
  | None, _ :: _ => false
  | _, _ => true
  end.

(** [app.listen(PORT, "0.0.0.0", callback)] *)
Definition listen (port : Js.value) (host : string) : M unit :=
  emit (Listen port host) ;;
  setListening true ;;
  st <- get ;;
  schedule (clock st) Listening.

(** The top level of [index.js]: the connection is started and not awaited,
    then the server is started. *)
Definition main : M unit :=
  connectToMongoDB 5 ;;
  listen (PORT (env w)) "0.0.0.0".

Definition initial : State := mkState 0 [] [] None 0 0 false.

(** Whether the process answers HTTP requests in a given state. *)
Definition reachable (st : State) : bool :=
  match exited st with
  | None => listening st
  | Some _ => false
  end.

End Lifecycle.

(** A request arriving at the process. *)
Definition serve (w : World) (rt : Runtime)
  (verifyToken : string -> option string) (authRoutes : Handler)
  (st : State) (req : Request) : option Response :=
  if reachable st then Some (app (env w) rt verifyToken authRoutes req)
  else None.

(* ================================================================= *)
(** ** Reading a trace *)

Definition actions (tr : list (Z * Action)) : list Action := map snd tr.

Definition isEnter (e : Z * Action) : bool :=
  match snd e with Enter _ => true | _ => false end.

Definition isMongooseConnect (e : Z * Action) : bool :=
  match snd e with MongooseConnect _ => true | _ => false end.

Definition isSetTimeout (e : Z * Action) : bool :=
  match snd e with SetTimeout _ _ => true | _ => false end.

Definition isConnectionError (e : Z * Action) : bool :=
  match snd e with LogError (ConnectionError _ _) => true | _ => false end.

(** The delays given to [setTimeout], in order. *)
Definition timeoutDelays (tr : list (Z * Action)) : list Z :=
  flat_map (fun e => match snd e with SetTimeout _ ms => [ms] | _ => [] end) tr.

(** The times at which [setTimeout] was called, and at which
    [connectToMongoDB] was entered. *)
Definition timeoutTimes (tr : list (Z * Action)) : list Z :=
  map fst (filter isSetTimeout tr).

Definition enterTimes (tr : list (Z * Action)) : list Z :=
  map fst (filter isEnter tr).

(** The budgets with which [connectToMongoDB] was entered, in order. *)
Definition budgets (tr : list (Z * Action)) : list Z :=
  flat_map (fun e => match snd e with Enter r => [r] | _ => [] end) tr.

(** [n, n-1, ..., 0] for [n >= 0]. *)
Fixpoint countdown (n : nat) : list Z :=
  match n with
  | O => [0]
  | S n' => Z.of_nat n :: countdown n'
  end.

(* ================================================================= *)
(** ** Vocabulary of the statements *)

(** A request for the protected route, as mounted under [/api]. *)
Definition toProtected (req : Request) : bool := isGet req "/api/protected".

(** The answer of the [auth] middleware to a request it rejects. *)
Definition authFailure (e : AuthError) : Response :=
  mkResponse 401 (Js.Obj [ ("success", Js.Bool false);
                           ("error", Js.Str (authErrorKind e)) ]).

(** [process.env.MONGO_URI] is set to a non-empty string. *)
Definition uriSet (w : World) : bool := Js.truthy (MONGO_URI (env w)).

(** Every call of [mongoose.connect] is rejected. *)
Definition allAttemptsFail (w : World) : Prop :=
  forall n, fst (connectResult w n) <> None.

(** Turns of the event loop that a failing connection with budget [N]
    takes: the driver's answer and the timer for each attempt but the last
    when the driver is called, the timer alone when the URI is missing. *)
Definition turns (w : World) (N : Z) : nat :=
  if uriSet w then (2 * Z.to_nat N + 1)%nat else Z.to_nat N.

Definition requestIds (ts : list (Z * Callback)) : list nat :=
  flat_map (fun t => match snd t with RequestDone id => [id] | _ => [] end) ts.

(** The messages of the connection failures reported, in order. *)
Definition failureMessages (tr : list (Z * Action)) : list string :=
  flat_map (fun e => match snd e with
                     | LogError (ConnectionError _ err) => [err]
                     | _ => []
                     end) tr.

Definition failureTimes (tr : list (Z * Action)) : list Z :=
  map fst (filter isConnectionError tr).

Definition isListen (e : Z * Action) : bool :=
  match snd e with Listen _ _ => true | _ => false end.

(** The state in which a failing connection with budget [N], started in
    [st], leaves the process. *)
Definition afterRetries (w : World) (N : Z) (st : State) : State :=
  run w (turns w N) (snd (connectToMongoDB w N st)).

(** The reading of "a missing URI is not retried": started with budget [N],
    the process never calls [setTimeout], however long it runs. *)
Definition noRetryWhenUriMissing (w : World) (N : Z) : Prop :=
  uriSet w = false ->
  forall fuel,
    timeoutDelays (trace (run w fuel (snd (connectToMongoDB w N initial)))) = [].

(** What [gracefulShutdown] is seen to do once the database step is
    reached, by the ready state of the connection and the answer of
    [close]. *)
Definition databaseActions (w : World) (st : State) : list Action :=
  if readyState st =? 0 then [Log ShutdownCompleted; Exit 0]
  else ConnectionClose false ::
       match fst (connectionCloseResult w) with
       | None => [Log MongoConnectionClosed; Log ShutdownCompleted; Exit 0]
       | Some err => [LogError (ShutdownError err); Exit 1]
       end.

(** The exit code a shutdown started in [st] ends with. *)
Definition shutdownCode (w : World) (st : State) : Z :=
  match serverCloseResult w with
  | Some _ => 1
  | None =>
      if readyState st =? 0 then 0
      else match fst (connectionCloseResult w) with
           | None => 0
           | Some _ => 1
           end
  end.

(** What a failing connection with budget [n], started in [st], has added
    to the trace when the loop comes to rest in [final]. *)
Record RetriesRun (w : World) (n : nat) (st final : State)
  (sfx : list (Z * Action)) : Prop := mkRetriesRun {
  rr_trace : trace final = trace st ++ sfx;
  rr_budgets : budgets sfx = countdown n;
  rr_connects :
    List.length (filter isMongooseConnect sfx) = if uriSet w then S n else O;
  rr_failures : List.length (failureMessages sfx) = S n;
  rr_delays : timeoutDelays sfx = repeat 5000 n;
  rr_times : enterTimes sfx = clock st :: map (fun t => t + 5000) (timeoutTimes sfx);
  rr_exhausted : In (LogError RetriesExhausted) (actions sfx);
  rr_timers : timers final = [];
  rr_exited : exited final = if isProduction (env w) then None else Some 1;
  rr_listening : listening final = listening st;
  rr_missing :
    uriSet w = false ->
    failureTimes sfx = enterTimes sfx
    /\ failureMessages sfx =
       repeat "MONGO_URI environment variable is not set" (S n)
}.

(* Worlds and states used as concrete inputs. *)

Definition envDevelopment : ProcessEnv :=
  mkEnv None (Some "development") (Some "mongodb://localhost:27017/expenses") None None.

Definition envProduction : ProcessEnv :=
  mkEnv (Some "8080") (Some "production") (Some "mongodb://db:27017/expenses") None None.

Definition envNoUri : ProcessEnv :=
  mkEnv None (Some "development") None None None.

(** A driver that refuses every connection after 30 ms, a server and a
    connection that close without error. *)
Definition unreachable (e : ProcessEnv) : World :=
  mkWorld e (fun _ => (Some "connect ECONNREFUSED", 30)) None (None, 10).

(** A running process: listening, connected, two requests in flight. *)
Definition busy : State :=
  mkState 100 [(120, RequestDone 2); (150, RequestDone 1)] [] None 1 1 true.

Definition someRuntime : Runtime :=
  mkRuntime "2026-01-01T00:00:00.000Z" 12 "Error: at <anonymous>".

(** A verification library that accepts exactly one token. *)
Definition oneToken (tok : string) : option string :=
  if String.eqb tok "t0k3n" then Some "user-42" else None.

(** A connected process with nothing pending. *)
Definition connected : State := mkState 100 [] [] None 1 1 true.

(** An error of the driver reaching the error handler. *)
Definition driverError : JsError :=
  mkError None (Some "connect ECONNREFUSED 10.0.0.5:27017")
          (Some "MongoNetworkError: connect ECONNREFUSED 10.0.0.5:27017 at connectionFailureError").

Definition noAuthRoutes : Handler := fun req => Next req.

Definition getRequest (p : string) (hs : list (string * string)) : Request :=
  mkRequest "GET" p hs Js.Undefined.

(* ================================================================= *)
(** ** The rest of the entry point *)

(** [s.split(",")]: the pieces between the separators; an empty string
    has one empty piece. *)
Fixpoint splitOn (sep : ascii) (s : string) : list string :=
  match s with
  | EmptyString => [""]
  | String c rest =>
      if Ascii.eqb c sep then "" :: splitOn sep rest
      else match splitOn sep rest with
           | piece :: pieces => String c piece :: pieces
           | [] => [String c ""]
           end
  end.

(** The [origin] option given to the CORS middleware: an array of origins
    or a single string. *)
Inductive Origin : Type :=
| OriginList (origins : list string)
| OriginString (origin : string).

(** [process.env.NODE_ENV === "production"
      ? process.env.CLIENT_URL?.split(",") || []
      : process.env.CLIENT_URL || "*"] *)
Definition corsOrigin (e : ProcessEnv) : Origin :=
  if isProduction e then
    match CLIENT_URL e with
    | Some s => OriginList (splitOn "," s)
    | None => OriginList []
    end
  else OriginString (Js.orElse (fun s => s) (CLIENT_URL e) "*").

Fixpoint hasChar (c : ascii) (s : string) : bool :=
  match s with
  | EmptyString => false
  | String c' rest => Ascii.eqb c' c || hasChar c rest
  end.

Fixpoint countChar (c : ascii) (s : string) : nat :=
  match s with
  | EmptyString => O
  | String c' rest => (if Ascii.eqb c' c then 1 else 0) + countChar c rest
  end.

(** [res.send(s)] *)
Definition send (s : string) (r : Response) : Response :=
  mkResponse (statusCode r) (Js.Str s).

Section Variants.

Variable penv : ProcessEnv.
Variable verifyToken : string -> option string.
Variable authRoutes : Handler.

(** The root route of the two shorter variants of the entry point. *)
Definition rootVariant : Handler := fun _ =>
  Respond (json (Js.object
    [ ("message", Js.Str ("Smart Expense Tracker API is running on port "
                          ++ Js.toString (PORT penv))%string);
      ("status", Js.Str "success") ])
    res).

(** [app.get("/health", (_, res) => res.send("ok"))] *)
Definition healthVariant : Handler := fun _ => Respond (send "ok" res).

(** [next({ status: 404, message: "Route not found" })] *)
Definition notFoundVariant : Handler := fun _ =>
  NextErr (mkError (Some 404) (Some "Route not found") None).

(** The variant without a health route: the routers, the root route, the
    404 handler. *)
Definition layersShort : list (string * Handler) :=
  [ ("authRoutes", use "/api/auth" authRoutes);
    ("protectedRoutes", use "/api" (fun req => snd (protectedRoutes verifyToken req)));
    ("root", route "/" rootVariant);
    ("notFound", notFoundVariant) ].

(** The variant whose health route answers "ok". *)
Definition layersShortWithHealth : list (string * Handler) :=
  ("health", route "/health" healthVariant) :: layersShort.

Definition appVariant (layers : list (string * Handler)) (req : Request) : Response :=
  match snd (runChain layers req) with
  | Respond r => r
  | NextErr e => errorHandlerVariant e
  | Next req' => finalHandler req'
  end.

End Variants.

(** What the listeners of the process events do. *)
Inductive Effect : Type :=
| ConsoleError (label err : string)
| ProcessExit (code : Z).

Definition Listener : Type := string -> list Effect.

(** [(err) => { console.error(label, err); }] *)
Definition logOnly (label : string) : Listener := fun err =>
  [ConsoleError label err].

(** [(err) => { console.error(label, err); process.exit(1); }] *)
Definition logAndExit (label : string) : Listener := fun err =>
  [ConsoleError label err; ProcessExit 1].

(** The listeners for errors that escape, in the order in which [index.js]
    registers them. *)
Definition fatalListeners : list (string * Listener) :=
  [ ("unhandledRejection", logOnly "Unhandled Rejection:");
    ("uncaughtException", logAndExit "Uncaught Exception:");
    ("uncaughtException", logAndExit "Uncaught Exception:");
    ("unhandledRejection", logAndExit "Unhandled Rejection:") ].

(** Those of the variant with the callback-style shutdown. *)
Definition fatalListenersCallbackVariant : list (string * Listener) :=
  [ ("uncaughtException", logAndExit "Uncaught Exception:");
    ("unhandledRejection", logAndExit "Unhandled Rejection:") ].

Definition isExit (e : Effect) : bool :=
  match e with ProcessExit _ => true | _ => false end.

(** [process.emit(event, err)]: the listeners of the event run in the
    order of registration; nothing runs after [process.exit]. *)
Fixpoint emitEvent (event err : string) (ls : list (string * Listener)) : list Effect :=
  match ls with
  | [] => []
  | (e, l) :: rest =>
      if String.eqb e event then
        if existsb isExit (l err) then l err
        else l err ++ emitEvent event err rest
      else emitEvent event err rest
  end.

(** The file system and the JSON parser, as the loader of the reference
    list uses them. A parsed value is [null] or something else. *)
Inductive Parsed (A : Type) : Type :=
| JsonNull
| JsonValue (v : A).
Arguments JsonNull {A}.
Arguments JsonValue {A} v.

Record FileSystem : Type := mkFileSystem {
  existsSync : string -> bool;
  readFileSync : string -> Result string string
}.

(** The value of [Types]: the empty array it starts with, or what the
    file held. *)
Inductive TypesValue (A : Type) : Type :=
| EmptyArray
| FromFile (v : Parsed A).
Arguments EmptyArray {A}.
Arguments FromFile {A} v.

Inductive LoadReport : Type :=
| Loaded
| FileNotFound
| LoadError (err : string).

Section Loader.

Variable A : Type.
Variable parse : string -> Result (Parsed A) string.   (* [JSON.parse] *)
Variable dataPath : string.   (* [path.join(process.cwd(), "src/data/mainList.json")] *)

(** The guarded loader of [index.js]. Reading [Types.length] for the log
    line throws when the file holds [null]; every exception ends in the
    [catch] block, which resets [Types]. *)
Definition loadTypes (fs : FileSystem) : TypesValue A * LoadReport :=
  if existsSync fs dataPath then
    match readFileSync fs dataPath with
    | Err e => (EmptyArray, LoadError e)
    | Ok rawData =>
        match parse rawData with
        | Err e => (EmptyArray, LoadError e)
        | Ok JsonNull =>
            (EmptyArray, LoadError "Cannot read properties of null (reading 'length')")
        | Ok (JsonValue v) => (FromFile (JsonValue v), Loaded)
        end
    end
  else (EmptyArray, FileNotFound).

(** The loader of the variant without [try]: an exception is not caught. *)
Definition loadTypesUnguarded (fs : FileSystem) : Result (TypesValue A) string :=
  match readFileSync fs dataPath with
  | Err e => Err e
  | Ok rawData =>
      match parse rawData with
      | Err e => Err e
      | Ok v => Ok (FromFile v)
      end
  end.

End Loader.

(** The budgets of [k + 1] successive attempts that start with [N]. *)
Definition budgetsFrom (N : Z) (k : nat) : list Z :=
  map (fun i => N - Z.of_nat i) (seq 0 (S k)).

(** No variable set, and every variable set to the empty string. *)
Definition envBare : ProcessEnv := mkEnv None None None None None.

Definition envBlank : ProcessEnv :=
  mkEnv (Some "") (Some "") (Some "") (Some "") (Some "").

(** Production with two allowed origins. *)
Definition envTwoOrigins : ProcessEnv :=
  mkEnv None (Some "production") (Some "mongodb://db:27017/expenses")
        (Some "https://a.example,https://b.example") None.

(** A driver that refuses twice and then accepts. *)
Definition flaky (e : ProcessEnv) : World :=
  mkWorld e (fun n => if (n <? 2)%nat then (Some "connect ECONNREFUSED", 30) else (None, 30))
          None (None, 10).

(** A process in production whose database is down, waiting for a retry. *)
Definition degraded : State :=
  mkState 100 [(4000, RetryConnect 3)] [] None 2 0 true.

(** A file system with the reference list. *)
Definition withList (content : string) : FileSystem :=
  mkFileSystem (fun _ => true) (fun _ => Ok content).

(** A parser that knows two documents. *)
Definition toyParse (s : string) : Result (Parsed nat) string :=
  if String.eqb s "null" then Ok JsonNull
  else if String.eqb s "[1,2,3]" then Ok (JsonValue 3%nat)
  else Err "Unexpected token".

(* ================================================================= *)
(** * Properties of the HTTP surface *)

Lemma isGet_inv (req : Request) (p : string) :
  isGet req p = true -> method req = "GET" /\ path req = p.
Proof.
  unfold isGet. intros H.
  apply andb_true_iff in H. destruct H as [Hm Hp].
  split; now apply String.eqb_eq.
Qed.

(** Brings a request with a known method and path to a form on which the
    routing computes. *)
Ltac routed H :=
  let Hm := fresh "Hm" in
  let Hp := fresh "Hp" in
  apply isGet_inv in H; destruct H as [Hm Hp];
  match goal with
  | req : Request |- _ => destruct req as [m p hs u]; simpl in Hm, Hp; subst m p
  end.

Section Surface.

Variable penv : ProcessEnv.
Variable rt : Runtime.
Variable verifyToken : string -> option string.
Variable authRoutes : Handler.


Lemma protected_dispatch (req : Request) :
  toProtected req = true ->
  app penv rt verifyToken authRoutes req =
    match verify verifyToken (header "authorization" (headers req)) with
    | Ok id =>
        mkResponse 200
          (Js.Obj [ ("message",
                     Js.Str "This is protected data accessible only with valid token");
                    ("userId", Js.Str id) ])
    | Err e => authFailure e
    end
  /\ fst (protectedRoutes verifyToken (withPath "/protected" req)) =
    match verify verifyToken (header "authorization" (headers req)) with
    | Ok _ => ["auth"; "protected"]
    | Err _ => ["auth"]
    end.
Proof.
  unfold toProtected. intros H. routed H.
  unfold app, protectedRoutes. cbn. unfold auth. cbn.
  destruct (verify verifyToken (header "authorization" hs)); cbn; auto.
Qed.

(** C1. A request to the protected route without a credential is answered
    401 with the kind "missing credential"; one whose credential is present
    but malformed or rejected is answered 401 with the kind "invalid
    credential". In both cases only [auth] runs: the route handler runs
    only for a request whose credential verifies. *)
Theorem protected_route_rejects_unverified (req : Request) :
  toProtected req = true ->
  let credential := header "authorization" (headers req) in
  let ran := fst (protectedRoutes verifyToken (withPath "/protected" req)) in
  (credential = None ->
     app penv rt verifyToken authRoutes req = authFailure Missing
     /\ Js.get (body (app penv rt verifyToken authRoutes req)) "error"
        = Js.Str "missing credential"
     /\ ran = ["auth"])
  /\ (forall c e, credential = Some c ->
        verify verifyToken (Some c) = Err e ->
        e = Invalid
        /\ app penv rt verifyToken authRoutes req = authFailure Invalid
        /\ Js.get (body (app penv rt verifyToken authRoutes req)) "error"
           = Js.Str "invalid credential"
        /\ ran = ["auth"])
  /\ (forall e, verify verifyToken credential = Err e ->
        statusCode (app penv rt verifyToken authRoutes req) = 401
        /\ ~ In "protected" ran)
  /\ (In "protected" ran -> exists id, verify verifyToken credential = Ok id).
Proof.
  intros H credential ran.
  destruct (protected_dispatch req H) as [Hr Hran].
  fold credential in Hr, Hran. fold ran in Hran.
  split; [| split; [| split]].
  - intros Hc. rewrite Hr, Hran, Hc. repeat split.
  - intros c e Hc He.
    assert (Hi : e = Invalid).
    { unfold verify in He. destruct (bearerToken c) as [tok |].
      - destruct (verifyToken tok); congruence.
      - congruence. }
    subst e. rewrite Hr, Hran, Hc, He. repeat split.
  - intros e He. rewrite Hr, Hran, He. split; [reflexivity |].
    simpl. intros [E | []]. discriminate E.
  - intros Hin. rewrite Hran in Hin.
    destruct (verify verifyToken credential) as [id | e].
    + now exists id.
    + simpl in Hin. destruct Hin as [E | []]. discriminate E.
Qed.

(** C2. A request to the protected route with a valid bearer credential is
    answered 200 with the body [{message, userId}], where [userId] is the
    identity the credential encodes. *)
Theorem protected_route_returns_identity (req : Request) (id : string) :
  toProtected req = true ->
  verify verifyToken (header "authorization" (headers req)) = Ok id ->
  statusCode (app penv rt verifyToken authRoutes req) = 200
  /\ Js.keys (body (app penv rt verifyToken authRoutes req)) = ["message"; "userId"]
  /\ Js.get (body (app penv rt verifyToken authRoutes req)) "userId" = Js.Str id.
Proof.
  intros H Hv.
  destruct (protected_dispatch req H) as [Hr _].
  rewrite Hr, Hv. repeat split.
Qed.

Lemma health_answer (e : ProcessEnv) (req : Request) :
  isGet req "/health" = true ->
  app e rt verifyToken authRoutes req =
    mkResponse 200
      (Js.Obj [ ("status", Js.Str "healthy");
                ("timestamp", Js.Str (dateISO rt));
                ("uptime", Js.Num (uptime rt));
                ("environment", Js.Str (environmentName e)) ]).
Proof.
  intros H. routed H. reflexivity.
Qed.

(** C3. GET /health is answered 200 with the fields status, timestamp,
    uptime and environment, whatever the ready state of the database
    connection (0 disconnected, 1 connected, 2 connecting, 3 disconnecting)
    of the process that serves it. *)
Theorem health_independent_of_database (w : World) (st : State) (req : Request) :
  isGet req "/health" = true ->
  reachable st = true ->
  exists r,
    serve w rt verifyToken authRoutes st req = Some r
    /\ statusCode r = 200
    /\ Js.keys (body r) = ["status"; "timestamp"; "uptime"; "environment"]
    /\ Js.get (body r) "status" = Js.Str "healthy"
    /\ Js.get (body r) "environment" = Js.Str (environmentName (env w)).
Proof.
  intros H Hup. unfold serve. rewrite Hup, (health_answer _ _ H).
  eexists. split; [reflexivity |]. cbn. auto.
Qed.

(** The handler that looks at the environment: in production the body is
    the same for every error. *)
Lemma errorHandler_production (e : JsError) :
  isProduction penv = true ->
  errorHandler penv e =
    mkResponse (statusOr500 e)
               (Js.Obj [ ("success", Js.Bool false);
                         ("error", Js.Str "Internal Server Error") ]).
Proof.
  intros Hp. unfold errorHandler. rewrite Hp. reflexivity.
Qed.

Lemma errorHandler_production_uniform (e1 e2 : JsError) :
  isProduction penv = true ->
  statusOr500 e1 = statusOr500 e2 ->
  errorHandler penv e1 = errorHandler penv e2.
Proof.
  intros Hp Hs. rewrite !errorHandler_production by assumption. now rewrite Hs.
Qed.

(** The shorter variants never send a stack, and send the message of the
    error whenever it has one, in every environment. *)
Lemma errorHandlerVariant_message (e : JsError) (msg : string) :
  message e = Some msg -> msg <> "" ->
  Js.get (body (errorHandlerVariant e)) "error" = Js.Str msg
  /\ Js.get (body (errorHandlerVariant e)) "stack" = Js.Undefined.
Proof.
  intros Hm Hne. unfold errorHandlerVariant. rewrite Hm. cbn.
  destruct (String.eqb_spec msg ""); [contradiction |]. split; reflexivity.
Qed.

(** C10. The port given to [listen] is the value of PORT (5001 when the
    variable is unset), and it is the port the root route echoes. *)
Theorem default_port_is_listened_and_echoed (w : World) (req : Request) :
  isGet req "/" = true ->
  let started := trace (snd (main w initial)) in
  let answer := app (env w) rt verifyToken authRoutes req in
  (exists p,
     filter isListen started = [(0, Listen p "0.0.0.0")]
     /\ p = PORT (env w)
     /\ Js.get (body answer) "message" =
        Js.Str ("Smart Expense Tracker API is running on port " ++ Js.toString p)%string)
  /\ (PORT_var (env w) = None ->
      filter isListen started = [(0, Listen (Js.Num 5001) "0.0.0.0")]
      /\ Js.get (body answer) "message" =
         Js.Str "Smart Expense Tracker API is running on port 5001").
Proof.
  intros H started answer.
  assert (Hl : filter isListen started = [(0, Listen (PORT (env w)) "0.0.0.0")]).
  { unfold started, main, connectToMongoDB, bind, tryCatch.
    destruct (MONGO_URI (env w)) as [uri |]; [destruct (String.eqb uri "") |];
      reflexivity. }
  assert (Ha : Js.get (body answer) "message" =
               Js.Str ("Smart Expense Tracker API is running on port "
                       ++ Js.toString (PORT (env w)))%string).
  { unfold answer. routed H. reflexivity. }
  split.
  - exists (PORT (env w)). auto.
  - intros Hp. rewrite Hl, Ha. unfold PORT. rewrite Hp. split; reflexivity.
Qed.

End Surface.

(* ================================================================= *)
(** * Properties of the connection loop *)

Section ConnectLoop.

Variable w : World.

Lemma run_step (fuel : nat) (st : State) due cb rest :
  exited st = None ->
  timers st = (due, cb) :: rest ->
  run w (S fuel) st = run w fuel (snd (fire w cb (tick due rest st))).
Proof.
  intros He Ht. simpl. now rewrite He, Ht.
Qed.

Lemma run_quiescent (fuel : nat) (st : State) :
  quiescent st = true -> run w fuel st = st.
Proof.
  unfold quiescent. destruct fuel; simpl; auto.
  destruct (exited st); auto. destruct (timers st); auto. discriminate.
Qed.

Lemma run_add (a b : nat) (st : State) :
  run w (a + b) st = run w b (run w a st).
Proof.
  revert st. induction a as [| a IH]; intros st; [reflexivity |].
  cbn [Nat.add run].
  destruct (exited st) eqn:He.
  - symmetry. apply run_quiescent. unfold quiescent. now rewrite He.
  - destruct (timers st) as [| [due cb] rest] eqn:Ht.
    + symmetry. apply run_quiescent. unfold quiescent. now rewrite He, Ht.
    + apply IH.
Qed.

(** With budget left, the [catch] block reports the failure, leaves the
    retry to a timer due in 5000 ms and returns: the clock has not moved. *)
Lemma connectFailed_retry (r : Z) (err : string) (st : State) :
  0 < r ->
  connectFailed w r err st =
    (Done tt,
     mkState (clock st)
             (insertTimer (clock st + 5000) (RetryConnect r) (timers st))
             (trace st ++ [ (clock st, LogError (ConnectionError r err));
                            (clock st, Log Retrying);
                            (clock st, SetTimeout (RetryConnect r) 5000) ])
             (exited st) (connects st) (readyState st) (listening st)).
Proof.
  intros Hr. unfold connectFailed.
  assert (E : (r >? 0) = true) by lia. rewrite E.
  unfold bind, logError, log, setTimeout, bind, emit, get, schedule. simpl.
  rewrite <- !app_assoc. reflexivity.
Qed.

(** With no budget left, it reports the failure and, outside production,
    exits with code 1. *)
Lemma connectFailed_exhausted (r : Z) (err : string) (st : State) :
  r <= 0 ->
  connectFailed w r err st =
    if isProduction (env w) then
      (Done tt,
       mkState (clock st) (timers st)
               (trace st ++ [ (clock st, LogError (ConnectionError r err));
                              (clock st, LogError RetriesExhausted) ])
               (exited st) (connects st) (readyState st) (listening st))
    else
      (Halted,
       mkState (clock st) (timers st)
               (trace st ++ [ (clock st, LogError (ConnectionError r err));
                              (clock st, LogError RetriesExhausted);
                              (clock st, Exit 1) ])
               (Some 1) (connects st) (readyState st) (listening st)).
Proof.
  intros Hr. unfold connectFailed.
  assert (E : (r >? 0) = false) by lia. rewrite E.
  unfold bind, logError, emit, exit, ret. simpl.
  destruct (isProduction (env w)); simpl; rewrite <- !app_assoc; reflexivity.
Qed.

Lemma uriSet_true :
  uriSet w = true -> exists uri, MONGO_URI (env w) = Some uri /\ String.eqb uri "" = false.
Proof.
  unfold uriSet, Js.truthy. destruct (MONGO_URI (env w)) as [uri |]; [| discriminate].
  intros H. exists uri. split; [reflexivity |]. now apply negb_true_iff.
Qed.

(** With a URI, [connectToMongoDB] calls the driver and returns; the
    answer of the driver is awaited in the queue. *)
Lemma connect_with_uri (r : Z) (st : State) (uri : string) :
  MONGO_URI (env w) = Some uri ->
  String.eqb uri "" = false ->
  connectToMongoDB w r st =
    (Done tt,
     mkState (clock st)
             (insertTimer (clock st + snd (connectResult w (connects st)))
                (ConnectSettled r (fst (connectResult w (connects st))))
                (timers st))
             (trace st ++ [ (clock st, Enter r); (clock st, MongooseConnect uri) ])
             (exited st) (S (connects st)) 2 (listening st)).
Proof.
  intros Hu Hne. unfold connectToMongoDB. rewrite Hu, Hne.
  unfold bind, tryCatch, emit, setReadyState, countConnect, get, schedule. simpl.
  rewrite <- !app_assoc. reflexivity.
Qed.

(** Without one, the error is thrown before the driver is called and is
    handled by the [catch] block in the same turn. *)
Lemma connect_without_uri (r : Z) (st : State) :
  uriSet w = false ->
  connectToMongoDB w r st =
    connectFailed w r "MONGO_URI environment variable is not set"
      (mkState (clock st) (timers st) (trace st ++ [(clock st, Enter r)])
               (exited st) (connects st) (readyState st) (listening st)).
Proof.
  unfold uriSet, Js.truthy, connectToMongoDB. intros Hu.
  destruct (MONGO_URI (env w)) as [uri |].
  - apply negb_false_iff in Hu. rewrite Hu. reflexivity.
  - reflexivity.
Qed.

(** One failed attempt with budget left, with a URI: two turns of the loop
    (the driver's answer, then the timer) lead to the next call. *)
Lemma attempt_fails_uri (r : Z) (st : State) (uri err : string) (lat : Z) (fuel : nat) :
  MONGO_URI (env w) = Some uri ->
  String.eqb uri "" = false ->
  timers st = [] ->
  exited st = None ->
  connectResult w (connects st) = (Some err, lat) ->
  0 < r ->
  let failed := Z.max (clock st) (clock st + lat) in
  run w (S (S fuel)) (snd (connectToMongoDB w r st)) =
  run w fuel (snd (connectToMongoDB w (r - 1)
    (mkState (Z.max failed (failed + 5000)) []
       (trace st ++ [ (clock st, Enter r);
                      (clock st, MongooseConnect uri);
                      (failed, LogError (ConnectionError r err));
                      (failed, Log Retrying);
                      (failed, SetTimeout (RetryConnect r) 5000) ])
       None (S (connects st)) 0 (listening st)))).
Proof.
  intros Huri Hne Ht He Hres Hr failed.
  rewrite (connect_with_uri _ _ _ Huri Hne), Ht, Hres. simpl insertTimer.
  erewrite run_step; [| exact He | reflexivity].
  cbn [fire fst snd]. unfold connectSettled, bind, setReadyState, tick.
  cbn [fst snd clock timers trace exited connects readyState listening].
  rewrite connectFailed_retry by exact Hr.
  cbn [fst snd clock timers trace exited connects readyState listening insertTimer].
  erewrite run_step; [| exact He | reflexivity].
  cbn [fire fst snd]. unfold tick.
  cbn [fst snd clock timers trace exited connects readyState listening].
  rewrite <- app_assoc, ?He. reflexivity.
Qed.

(** The last attempt, with a URI: one turn of the loop. *)
Lemma last_attempt_fails_uri (r : Z) (st : State) (uri err : string) (lat : Z) (fuel : nat) :
  MONGO_URI (env w) = Some uri ->
  String.eqb uri "" = false ->
  timers st = [] ->
  exited st = None ->
  connectResult w (connects st) = (Some err, lat) ->
  r <= 0 ->
  let failed := Z.max (clock st) (clock st + lat) in
  let reported :=
    trace st ++ [ (clock st, Enter r);
                  (clock st, MongooseConnect uri);
                  (failed, LogError (ConnectionError r err));
                  (failed, LogError RetriesExhausted) ] in
  run w (S fuel) (snd (connectToMongoDB w r st)) =
    if isProduction (env w) then
      mkState failed [] reported None (S (connects st)) 0 (listening st)
    else
      mkState failed [] (reported ++ [(failed, Exit 1)]) (Some 1)
              (S (connects st)) 0 (listening st).
Proof.
  intros Huri Hne Ht He Hres Hr failed reported.
  rewrite (connect_with_uri _ _ _ Huri Hne), Ht, Hres. simpl insertTimer.
  erewrite run_step; [| exact He | reflexivity].
  cbn [fire fst snd]. unfold connectSettled, bind, setReadyState, tick.
  cbn [fst snd clock timers trace exited connects readyState listening].
  rewrite connectFailed_exhausted by exact Hr.
  destruct (isProduction (env w));
    cbn [fst snd clock timers trace exited connects readyState listening];
    rewrite ?He; rewrite run_quiescent by reflexivity; unfold reported;
    rewrite <- ?app_assoc; reflexivity.
Qed.

(** Without a URI the failure takes no turn: one turn, the timer, leads to
    the next call. *)
Lemma attempt_fails_without_uri (r : Z) (st : State) (fuel : nat) :
  uriSet w = false ->
  timers st = [] ->
  exited st = None ->
  0 < r ->
  run w (S fuel) (snd (connectToMongoDB w r st)) =
  run w fuel (snd (connectToMongoDB w (r - 1)
    (mkState (Z.max (clock st) (clock st + 5000)) []
       (trace st ++ [ (clock st, Enter r);
                      (clock st, LogError (ConnectionError r
                          "MONGO_URI environment variable is not set"));
                      (clock st, Log Retrying);
                      (clock st, SetTimeout (RetryConnect r) 5000) ])
       None (connects st) (readyState st) (listening st)))).
Proof.
  intros Hu Ht He Hr.
  rewrite (connect_without_uri _ _ Hu), connectFailed_retry by exact Hr.
  cbn [fst snd clock timers trace exited connects readyState listening].
  rewrite Ht. simpl insertTimer.
  erewrite run_step; [| exact He | reflexivity].
  cbn [fire fst snd]. unfold tick.
  cbn [fst snd clock timers trace exited connects readyState listening].
  rewrite <- app_assoc, ?He. reflexivity.
Qed.

Lemma last_attempt_fails_without_uri (r : Z) (st : State) (fuel : nat) :
  uriSet w = false ->
  timers st = [] ->
  exited st = None ->
  r <= 0 ->
  let reported :=
    trace st ++ [ (clock st, Enter r);
                  (clock st, LogError (ConnectionError r
                      "MONGO_URI environment variable is not set"));
                  (clock st, LogError RetriesExhausted) ] in
  run w fuel (snd (connectToMongoDB w r st)) =
    if isProduction (env w) then
      mkState (clock st) [] reported None (connects st) (readyState st) (listening st)
    else
      mkState (clock st) [] (reported ++ [(clock st, Exit 1)]) (Some 1)
              (connects st) (readyState st) (listening st).
Proof.
  intros Hu Ht He Hr reported.
  rewrite (connect_without_uri _ _ Hu), connectFailed_exhausted by exact Hr.
  destruct (isProduction (env w));
    cbn [fst snd clock timers trace exited connects readyState listening];
    rewrite ?He, ?Ht; rewrite run_quiescent by reflexivity;
    unfold reported; rewrite <- ?app_assoc; reflexivity.
Qed.

Lemma In_actions_app_r (a : Action) (l1 l2 : list (Z * Action)) :
  In a (actions l2) -> In a (actions (l1 ++ l2)).
Proof.
  unfold actions. rewrite map_app. intros H. apply in_or_app. now right.
Qed.

(** A connection that always fails, started with budget [n] in a process
    with nothing pending, comes to rest after [n + 1] attempts. *)
Lemma retries_run (n : nat) :
  (uriSet w = true -> allAttemptsFail w) ->
  forall st, timers st = [] -> exited st = None ->
  exists sfx, RetriesRun w n st (afterRetries w (Z.of_nat n) st) sfx.
Proof.
  intros Hfail. unfold afterRetries, turns. rewrite Nat2Z.id.
  destruct (uriSet w) eqn:Hu.
  - destruct (uriSet_true Hu) as (uri & Huri & Hne).
    replace (2 * n + 1)%nat with (S (2 * n)) by lia.
    induction n as [| n IH]; intros st Ht He;
      pose proof (Hfail eq_refl (connects st)) as Hf;
      destruct (connectResult w (connects st)) as [[err |] lat] eqn:Hres;
      try (now elim Hf).
    + pose proof (last_attempt_fails_uri (Z.of_nat 0) st uri err lat 0 Huri Hne Ht He Hres) as E.
      cbv zeta in E. change (S (2 * 0)) with 1%nat. rewrite E by (simpl; lia). clear E.
      destruct (isProduction (env w)) eqn:Hp.
      * eexists. constructor; try rewrite Hu; try rewrite Hp;
          [ cbn [trace]; reflexivity | .. ]; simpl; auto 10.
        intros; discriminate.
      * eexists. constructor; try rewrite Hu; try rewrite Hp;
          [ cbn [trace]; rewrite <- app_assoc; reflexivity | .. ]; simpl; auto 10.
        intros; discriminate.
    + pose proof (attempt_fails_uri (Z.of_nat (S n)) st uri err lat (S (2 * n))
                    Huri Hne Ht He Hres) as E.
      cbv zeta in E. replace (S (2 * S n)) with (S (S (S (2 * n)))) by lia.
      rewrite E by lia. clear E.
      replace (Z.of_nat (S n) - 1) with (Z.of_nat n) by lia.
      match goal with |- context [connectToMongoDB w _ ?s] => set (st' := s) end.
      destruct (IH st') as [sfx' R]; [reflexivity | reflexivity |].
      destruct R as [Rt Rb Rc Rf Rd Rtm Rx Rti Re Rl Rm].
      rewrite Hu in Rc.
      eexists. constructor; try rewrite Hu.
      * rewrite Rt. unfold st'. cbn [trace]. rewrite <- app_assoc. reflexivity.
      * unfold budgets in *. rewrite flat_map_app, Rb. reflexivity.
      * rewrite filter_app, length_app, Rc. reflexivity.
      * unfold failureMessages in *. rewrite flat_map_app, length_app, Rf. reflexivity.
      * unfold timeoutDelays in *. rewrite flat_map_app, Rd. reflexivity.
      * unfold enterTimes, timeoutTimes in *.
        rewrite !filter_app, !map_app, Rtm. unfold st'. cbn. f_equal. f_equal. lia.
      * apply (In_actions_app_r _ [_; _; _; _; _]). exact Rx.
      * exact Rti.
      * exact Re.
      * exact Rl.
      * intros; discriminate.
  - induction n as [| n IH]; intros st Ht He.
    + pose proof (last_attempt_fails_without_uri (Z.of_nat 0) st 0 Hu Ht He) as E.
      cbv zeta in E. rewrite E by (simpl; lia). clear E.
      destruct (isProduction (env w)) eqn:Hp.
      * eexists. constructor; try rewrite Hu; try rewrite Hp;
          [ cbn [trace]; reflexivity | .. ]; simpl; auto 10.
      * eexists. constructor; try rewrite Hu; try rewrite Hp;
          [ cbn [trace]; rewrite <- app_assoc; reflexivity | .. ]; simpl; auto 10.
    + rewrite (attempt_fails_without_uri (Z.of_nat (S n)) st n Hu Ht He) by lia.
      replace (Z.of_nat (S n) - 1) with (Z.of_nat n) by lia.
      match goal with |- context [connectToMongoDB w _ ?s] => set (st' := s) end.
      destruct (IH st') as [sfx' R]; [reflexivity | reflexivity |].
      destruct R as [Rt Rb Rc Rf Rd Rtm Rx Rti Re Rl Rm].
      rewrite Hu in Rc. destruct (Rm Hu) as [Rm1 Rm2].
      eexists. constructor; try rewrite Hu.
      * rewrite Rt. unfold st'. cbn [trace]. rewrite <- app_assoc. reflexivity.
      * unfold budgets in *. rewrite flat_map_app, Rb. reflexivity.
      * rewrite filter_app, length_app, Rc. reflexivity.
      * unfold failureMessages in *. rewrite flat_map_app, length_app, Rf. reflexivity.
      * unfold timeoutDelays in *. rewrite flat_map_app, Rd. reflexivity.
      * unfold enterTimes, timeoutTimes in *.
        rewrite !filter_app, !map_app, Rtm. unfold st'. cbn. f_equal. f_equal. lia.
      * apply (In_actions_app_r _ [_; _; _; _]). exact Rx.
      * exact Rti.
      * exact Re.
      * exact Rl.
      * intros _. split.
        -- unfold failureTimes, enterTimes in *.
           rewrite !filter_app, !map_app, Rm1. reflexivity.
        -- unfold failureMessages in *. rewrite flat_map_app, Rm2. reflexivity.
Qed.

Lemma countdown_length (n : nat) : List.length (countdown n) = S n.
Proof.
  induction n as [| n IH]; simpl; [reflexivity | now rewrite IH].
Qed.

Lemma connectToMongoDB_clock (r : Z) (st : State) :
  clock (snd (connectToMongoDB w r st)) = clock st.
Proof.
  destruct (uriSet w) eqn:Hu.
  - destruct (uriSet_true Hu) as (uri & Huri & Hne).
    now rewrite (connect_with_uri _ _ _ Huri Hne).
  - rewrite (connect_without_uri _ _ Hu).
    destruct (Z_lt_le_dec 0 r) as [Hr | Hr].
    + now rewrite connectFailed_retry.
    + rewrite connectFailed_exhausted by exact Hr.
      now destruct (isProduction (env w)).
Qed.

(** C4. If every connection attempt fails, a connection started with retry
    budget N is attempted exactly N + 1 times (the budgets N, N-1, ..., 0;
    as many calls of the driver when the URI is set; as many failures
    reported): N retries, each requested with the same delay of 5000 ms and
    begun exactly 5000 ms after it was requested. A retry is left to a
    timer: the [catch] block returns with the clock unchanged and the retry
    pending, and so does the call of [connectToMongoDB] itself. *)
Theorem failing_connect_makes_budget_plus_one_attempts (N : Z) (st : State) :
  0 <= N ->
  allAttemptsFail w ->
  timers st = [] ->
  exited st = None ->
  (exists sfx,
     trace (afterRetries w N st) = trace st ++ sfx
     /\ budgets sfx = countdown (Z.to_nat N)
     /\ Z.of_nat (List.length (budgets sfx)) = N + 1
     /\ (uriSet w = true ->
         Z.of_nat (List.length (filter isMongooseConnect sfx)) = N + 1)
     /\ Z.of_nat (List.length (failureMessages sfx)) = N + 1
     /\ timeoutDelays sfx = repeat 5000 (Z.to_nat N)
     /\ enterTimes sfx = clock st :: map (fun t => t + 5000) (timeoutTimes sfx)
     /\ timers (afterRetries w N st) = [])
  /\ (forall more,
        run w (turns w N + more) (snd (connectToMongoDB w N st)) = afterRetries w N st)
  /\ (forall r err s, 0 < r ->
        fst (connectFailed w r err s) = Done tt
        /\ clock (snd (connectFailed w r err s)) = clock s
        /\ timers (snd (connectFailed w r err s)) =
           insertTimer (clock s + 5000) (RetryConnect r) (timers s))
  /\ (forall r s, clock (snd (connectToMongoDB w r s)) = clock s).
Proof.
  intros HN Hfail Ht He.
  destruct (retries_run (Z.to_nat N) (fun _ => Hfail) st Ht He) as [sfx R].
  rewrite Z2Nat.id in R by exact HN.
  destruct R as [Rt Rb Rc Rf Rd Rtm Rx Rti Re Rl Rm].
  split; [| split; [| split]].
  - exists sfx. repeat split; try assumption.
    + rewrite Rb, countdown_length. lia.
    + intros Hu. rewrite Rc, Hu. lia.
    + rewrite Rf. lia.
  - intros more. rewrite run_add. fold (afterRetries w N st).
    apply run_quiescent. unfold quiescent. rewrite Rti.
    now destruct (exited (afterRetries w N st)).
  - intros r err s Hr. rewrite connectFailed_retry by exact Hr. auto.
  - apply connectToMongoDB_clock.
Qed.

(** C5, as the code has it. If the database URI is missing, the connection
    fails at once, in the turn in which it is started and without a call of
    the driver; the failure is then handled like every connection failure:
    it is retried every 5000 ms until the budget is used up. *)
Theorem missing_uri_fails_at_once_and_is_retried (N : Z) (st : State) :
  0 <= N ->
  uriSet w = false ->
  timers st = [] ->
  exited st = None ->
  exists sfx,
    trace (afterRetries w N st) = trace st ++ sfx
    /\ filter isMongooseConnect sfx = []
    /\ failureTimes sfx = enterTimes sfx
    /\ hd_error (failureTimes sfx) = Some (clock st)
    /\ failureMessages sfx =
       repeat "MONGO_URI environment variable is not set" (S (Z.to_nat N))
    /\ budgets sfx = countdown (Z.to_nat N)
    /\ timeoutDelays sfx = repeat 5000 (Z.to_nat N)
    /\ exited (afterRetries w N st) =
       if isProduction (env w) then None else Some 1.
Proof.
  intros HN Hu Ht He.
  assert (Hfail : uriSet w = true -> allAttemptsFail w).
  { intros Hu'. rewrite Hu in Hu'. discriminate. }
  destruct (retries_run (Z.to_nat N) Hfail st Ht He) as [sfx R].
  rewrite Z2Nat.id in R by exact HN.
  destruct R as [Rt Rb Rc Rf Rd Rtm Rx Rti Re Rl Rm].
  destruct (Rm Hu) as [Rm1 Rm2]. rewrite Hu in Rc.
  exists sfx. repeat split; try assumption.
  - now apply length_zero_iff_nil.
  - rewrite Rm1, Rtm. reflexivity.
Qed.

(** C6. When the budget is used up without success, the process exits
    with code 1 if the environment is development (and whenever it is not
    production), and in production it does not exit: a server that was
    listening still is and still answers GET /health with 200. The same is
    true of the exhausted [catch] block in any state of the process. *)
Theorem exhausted_budget_exits_unless_production
  (N : Z) (st : State) (rt : Runtime)
  (verifyToken : string -> option string) (authRoutes : Handler) :
  0 <= N ->
  allAttemptsFail w ->
  timers st = [] ->
  exited st = None ->
  In (LogError RetriesExhausted) (actions (trace (afterRetries w N st)))
  /\ (NODE_ENV (env w) = Some "development" ->
      exited (afterRetries w N st) = Some 1)
  /\ (isProduction (env w) = false ->
      exited (afterRetries w N st) = Some 1)
  /\ (NODE_ENV (env w) = Some "production" ->
      exited (afterRetries w N st) = None
      /\ listening (afterRetries w N st) = listening st
      /\ (listening st = true ->
          forall req, isGet req "/health" = true ->
          exists r,
            serve w rt verifyToken authRoutes (afterRetries w N st) req = Some r
            /\ statusCode r = 200))
  /\ (forall r err s, r <= 0 ->
        (isProduction (env w) = false ->
           exited (snd (connectFailed w r err s)) = Some 1)
        /\ (isProduction (env w) = true ->
           exited (snd (connectFailed w r err s)) = exited s
           /\ listening (snd (connectFailed w r err s)) = listening s
           /\ timers (snd (connectFailed w r err s)) = timers s)).
Proof.
  intros HN Hfail Ht He.
  destruct (retries_run (Z.to_nat N) (fun _ => Hfail) st Ht He) as [sfx R].
  rewrite Z2Nat.id in R by exact HN.
  destruct R as [Rt Rb Rc Rf Rd Rtm Rx Rti Re Rl Rm].
  split; [| split; [| split; [| split]]].
  - rewrite Rt. now apply In_actions_app_r.
  - intros Hd. rewrite Re. unfold isProduction. rewrite Hd. reflexivity.
  - intros Hp. rewrite Re, Hp. reflexivity.
  - intros Hp.
    assert (Hprod : isProduction (env w) = true).
    { unfold isProduction. rewrite Hp. reflexivity. }
    rewrite Hprod in Re. repeat split; try assumption.
    intros Hl req Hreq.
    unfold serve, reachable. rewrite Re, Rl, Hl, (health_answer _ _ _ _ _ Hreq).
    eexists. split; reflexivity.
  - intros r err s Hr. rewrite connectFailed_exhausted by exact Hr.
    split; intros Hp; rewrite Hp; auto.
Qed.

End ConnectLoop.

(* ================================================================= *)
(** * Properties of the shutdown *)

Section Shutdown.

Variable w : World.

Lemma insertTimer_last (due : Z) (cb : Callback) (ts : list (Z * Callback)) :
  Forall (fun t => fst t <= due) ts ->
  insertTimer due cb ts = ts ++ [(due, cb)].
Proof.
  induction 1 as [| [d c] ts Hd _ IH]; [reflexivity |].
  simpl in *. assert (E : (d <=? due) = true) by lia.
  now rewrite E, IH.
Qed.

Lemma fold_max_ge (l : list Z) (a : Z) :
  a <= fold_left Z.max l a /\ Forall (fun d => d <= fold_left Z.max l a) l.
Proof.
  revert a. induction l as [| d l IH]; intros a; simpl.
  - split; [lia | constructor].
  - destruct (IH (Z.max a d)) as [H1 H2]. split; [lia |].
    constructor; [lia | exact H2].
Qed.

(** The last request in flight finishes no earlier than any of them. *)
Lemma drainTime_bound (st : State) :
  forallb isRequest (timers st) = true ->
  Forall (fun t => fst t <= drainTime st) (timers st).
Proof.
  intros Hall. unfold drainTime.
  assert (E : filter isRequest (timers st) = timers st).
  { apply forallb_filter_id. exact Hall. }
  rewrite E.
  destruct (fold_max_ge (map fst (timers st)) (clock st)) as [_ H].
  rewrite Forall_map in H. exact H.
Qed.

(** The requests in flight finish, one turn of the loop each. *)
Lemma run_requests (reqs rest : list (Z * Callback)) :
  forallb isRequest reqs = true ->
  forall c tr k rs l,
  exists c' sfx,
    run w (List.length reqs) (mkState c (reqs ++ rest) tr None k rs l) =
      mkState c' rest (tr ++ sfx) None k rs l
    /\ actions sfx = map RequestCompleted (requestIds reqs)
    /\ c <= c'.
Proof.
  induction reqs as [| [d cb] reqs IH]; intros Hall c tr k rs l.
  - exists c, []. simpl. rewrite app_nil_r. repeat split. lia.
  - simpl in Hall. apply andb_true_iff in Hall. destruct Hall as [Hcb Hall].
    destruct cb; try discriminate.
    change (List.length ((d, RequestDone id) :: reqs)) with (S (List.length reqs)).
    rewrite <- app_comm_cons.
    erewrite run_step; [| reflexivity | reflexivity].
    cbn [fire]. unfold tick, emit.
    cbn [fst snd clock timers trace exited connects readyState listening].
    destruct (IH Hall (Z.max c d) (tr ++ [(Z.max c d, RequestCompleted id)]) k rs l)
      as (c' & sfx & Hrun & Hact & Hc).
    exists c', ((Z.max c d, RequestCompleted id) :: sfx).
    rewrite Hrun. repeat split.
    + rewrite <- app_assoc. reflexivity.
    + change (actions ((Z.max c d, RequestCompleted id) :: sfx))
        with (RequestCompleted id :: actions sfx).
      rewrite Hact. reflexivity.
    + lia.
Qed.

(** What the handler of a termination signal does before it first waits:
    the listener is closed, and the callback of [server.close] is due when
    the last request in flight has finished. *)
Lemma deliver_running (sig : string) (st : State) :
  In sig signals ->
  exited st = None ->
  listening st = true ->
  forallb isRequest (timers st) = true ->
  deliver w sig st =
    mkState (clock st)
            (timers st ++ [(drainTime st,
                            ServerClosed (serverCloseResult w) [CloseDatabase; Complete])])
            (trace st ++ [ (clock st, Log (ShutdownStarted sig));
                           (clock st, ServerClose) ])
            None (connects st) (readyState st) false.
Proof.
  intros Hsig He Hl Hall. unfold deliver. rewrite He.
  assert (Hh : handlerOf sig (signalHandlers w) = Some (gracefulShutdown w sig)).
  { destruct Hsig as [<- | [<- | []]]; reflexivity. }
  rewrite Hh. unfold gracefulShutdown, bind, log, emit. cbn [shutdownFrom].
  unfold bind, get, emit, setListening, schedule.
  cbn [fst snd clock timers trace exited connects readyState listening].
  rewrite Hl.
  cbn [fst snd clock timers trace exited connects readyState listening].
  rewrite <- app_assoc.
  rewrite insertTimer_last.
  - rewrite He. reflexivity.
  - exact (drainTime_bound st Hall).
Qed.

(** C7. On SIGTERM and on SIGINT alike, a running process first closes the
    HTTP listener, then lets the requests in flight finish, and only after
    the callback of [server.close] closes the database connection, without
    force, to exit with code 0 at the end. If closing the listener or the
    connection fails, the error is logged and the process exits with code
    1: nothing is attempted again and nothing follows. *)
Theorem graceful_shutdown_sequence (sig : string) (st : State) :
  sig = "SIGTERM" \/ sig = "SIGINT" ->
  exited st = None ->
  listening st = true ->
  forallb isRequest (timers st) = true ->
  let final := run w (List.length (timers st) + 2) (deliver w sig st) in
  exists sfx,
    trace final = trace st ++ sfx
    /\ actions sfx =
       [Log (ShutdownStarted sig); ServerClose]
       ++ map RequestCompleted (requestIds (timers st))
       ++ match serverCloseResult w with
          | Some err => [LogError (ShutdownError err); Exit 1]
          | None => Log HttpServerClosed :: databaseActions w st
          end
    /\ exited final = Some (shutdownCode w st)
    /\ timers final = [].
Proof.
  intros Hsig He Hl Hall final.
  assert (Hin : In sig signals).
  { destruct Hsig as [-> | ->]; simpl; auto. }
  unfold final. rewrite run_add, (deliver_running sig st Hin He Hl Hall).
  destruct (run_requests (timers st)
              [(drainTime st, ServerClosed (serverCloseResult w) [CloseDatabase; Complete])]
              Hall (clock st)
              (trace st ++ [ (clock st, Log (ShutdownStarted sig));
                             (clock st, ServerClose) ])
              (connects st) (readyState st) false)
    as (c & reqs & Hrun & Hact & Hc).
  rewrite Hrun. clear Hrun.
  unfold databaseActions, shutdownCode.
  destruct (serverCloseResult w) as [err |].
  - eexists. split; [| split; [| split]].
    + cbn. rewrite <- !app_assoc. reflexivity.
    + unfold actions in *. rewrite !map_app, Hact. reflexivity.
    + reflexivity.
    + reflexivity.
  - destruct (readyState st =? 0) eqn:Hrs.
    + eexists. split; [| split; [| split]].
      * cbn. rewrite Hrs. cbn. rewrite <- !app_assoc. reflexivity.
      * unfold actions in *. rewrite !map_app, Hact. reflexivity.
      * cbn. rewrite Hrs. reflexivity.
      * cbn. rewrite Hrs. reflexivity.
    + destruct (connectionCloseResult w) as [[err |] lat] eqn:Hcc.
      * eexists. split; [| split; [| split]].
        -- cbn. rewrite Hrs. cbn. rewrite Hcc. cbn. rewrite <- !app_assoc. reflexivity.
        -- unfold actions in *. rewrite !map_app, Hact. reflexivity.
        -- cbn. rewrite Hrs. cbn. rewrite Hcc. reflexivity.
        -- cbn. rewrite Hrs. cbn. rewrite Hcc. reflexivity.
      * eexists. split; [| split; [| split]].
        -- cbn. rewrite Hrs. cbn. rewrite Hcc. cbn. rewrite <- !app_assoc. reflexivity.
        -- unfold actions in *. rewrite !map_app, Hact. reflexivity.
        -- cbn. rewrite Hrs. cbn. rewrite Hcc. reflexivity.
        -- cbn. rewrite Hrs. cbn. rewrite Hcc. reflexivity.
Qed.

(** C8. Closing a connection that is already closed does nothing: the step
    is skipped, with no call of [close], no error and no change of state.
    Closing twice in succession is closing once: the second close finds
    the connection closed by the first, so the trace shows one call of
    [close] (none if the connection was closed before), no error, and the
    process ends in the same state. *)
Theorem close_is_idempotent (st : State) :
  (readyState st = 0 ->
     shutdownFrom w [CloseDatabase] st = (Done tt, st)
     /\ forall rest, shutdownFrom w (CloseDatabase :: rest) st = shutdownFrom w rest st)
  /\ (timers st = [] ->
      exited st = None ->
      fst (connectionCloseResult w) = None ->
      let once := run w 1 (snd (shutdownFrom w [CloseDatabase] st)) in
      let twice := run w 1 (snd (shutdownFrom w [CloseDatabase; CloseDatabase] st)) in
      twice = once
      /\ readyState twice = 0
      /\ exited twice = None
      /\ timers twice = []
      /\ trace twice =
         trace st ++
         (if readyState st =? 0 then []
          else [ (clock st, ConnectionClose false);
                 (Z.max (clock st) (clock st + snd (connectionCloseResult w)),
                  Log MongoConnectionClosed) ])).
Proof.
  split.
  - intros Hrs. split; [| intros rest];
      cbn [shutdownFrom]; unfold bind, get; rewrite Hrs; reflexivity.
  - intros Ht He Hok once twice. unfold once, twice.
    cbn [shutdownFrom]. unfold bind, get.
    destruct (readyState st =? 0) eqn:Hrs.
    + cbn. rewrite Hrs. cbn. rewrite He, Ht, app_nil_r.
      apply Z.eqb_eq in Hrs. auto.
    + cbn. rewrite Ht, He, Hok. cbn. rewrite <- app_assoc. auto.
Qed.

End Shutdown.

(* ================================================================= *)
(** * Concrete runs *)

Lemma protected_route_rejects_unverified_witness :
  toProtected (getRequest "/api/protected" []) = true
  /\ app envProduction someRuntime oneToken noAuthRoutes
         (getRequest "/api/protected" []) = authFailure Missing
  /\ app envProduction someRuntime oneToken noAuthRoutes
         (getRequest "/api/protected" [("authorization", "Bearer forged")])
     = authFailure Invalid.
Proof.
  pose proof (protected_route_rejects_unverified envProduction someRuntime
                oneToken noAuthRoutes (getRequest "/api/protected" []) eq_refl) as H1.
  pose proof (protected_route_rejects_unverified envProduction someRuntime
                oneToken noAuthRoutes
                (getRequest "/api/protected" [("authorization", "Bearer forged")])
                eq_refl) as H2.
  cbv zeta in H1, H2.
  destruct H1 as [Hm _]. destruct H2 as [_ [Hi _]].
  split; [reflexivity |]. split.
  - apply Hm. reflexivity.
  - apply (Hi "Bearer forged" Invalid); reflexivity.
Defined.

Lemma protected_route_returns_identity_witness :
  toProtected (getRequest "/api/protected" [("authorization", "Bearer t0k3n")]) = true
  /\ Js.get (body (app envProduction someRuntime oneToken noAuthRoutes
                     (getRequest "/api/protected" [("authorization", "Bearer t0k3n")])))
            "userId" = Js.Str "user-42".
Proof.
  split; [reflexivity |].
  apply (protected_route_returns_identity envProduction someRuntime oneToken
           noAuthRoutes
           (getRequest "/api/protected" [("authorization", "Bearer t0k3n")])
           "user-42"); reflexivity.
Defined.

Lemma health_independent_of_database_witness :
  isGet (getRequest "/health" []) "/health" = true
  /\ reachable busy = true
  /\ exists r,
       serve (unreachable envProduction) someRuntime oneToken noAuthRoutes busy
             (getRequest "/health" []) = Some r
       /\ statusCode r = 200.
Proof.
  split; [reflexivity |]. split; [reflexivity |].
  destruct (health_independent_of_database someRuntime oneToken noAuthRoutes
              (unreachable envProduction) busy (getRequest "/health" [])
              eq_refl eq_refl) as (r & Hs & Hc & _).
  exists r. split; assumption.
Defined.

Lemma default_port_is_listened_and_echoed_witness :
  isGet (getRequest "/" []) "/" = true
  /\ PORT_var (env (unreachable envDevelopment)) = None
  /\ filter isListen (trace (snd (main (unreachable envDevelopment) initial)))
     = [(0, Listen (Js.Num 5001) "0.0.0.0")].
Proof.
  split; [reflexivity |]. split; [reflexivity |].
  pose proof (default_port_is_listened_and_echoed someRuntime oneToken noAuthRoutes
                (unreachable envDevelopment) (getRequest "/" []) eq_refl) as H.
  cbv zeta in H. destruct H as [_ H]. destruct (H eq_refl) as [Hl _]. exact Hl.
Defined.

Lemma unreachable_always_fails (e : ProcessEnv) : allAttemptsFail (unreachable e).
Proof.
  intros n. simpl. discriminate.
Defined.

Lemma failing_connect_makes_budget_plus_one_attempts_witness :
  0 <= 2
  /\ allAttemptsFail (unreachable envDevelopment)
  /\ timers initial = []
  /\ exited initial = None
  /\ exists sfx,
       trace (afterRetries (unreachable envDevelopment) 2 initial) = trace initial ++ sfx
       /\ budgets sfx = [2; 1; 0]
       /\ timeoutDelays sfx = [5000; 5000].
Proof.
  split; [lia |]. split; [apply unreachable_always_fails |].
  split; [reflexivity |]. split; [reflexivity |].
  destruct (failing_connect_makes_budget_plus_one_attempts
              (unreachable envDevelopment) 2 initial)
    as [(sfx & Ht & Hb & _ & _ & _ & Hd & _) _];
    [lia | apply unreachable_always_fails | reflexivity | reflexivity |].
  exists sfx. split; [exact Ht |]. split; [exact Hb | exact Hd].
Defined.

(** C5 fails on the code: without a URI, a process started with the
    budget of the source, 5, calls [setTimeout] five times. *)
Lemma missing_uri_is_retried :
  ~ noRetryWhenUriMissing (unreachable envNoUri) 5.
Proof.
  intros H. specialize (H eq_refl 5%nat). vm_compute in H. discriminate H.
Qed.

Lemma missing_uri_fails_at_once_and_is_retried_witness :
  0 <= 5
  /\ uriSet (unreachable envNoUri) = false
  /\ timers initial = []
  /\ exited initial = None
  /\ exists sfx,
       trace (afterRetries (unreachable envNoUri) 5 initial) = trace initial ++ sfx
       /\ filter isMongooseConnect sfx = []
       /\ timeoutDelays sfx = [5000; 5000; 5000; 5000; 5000].
Proof.
  split; [lia |]. split; [reflexivity |]. split; [reflexivity |].
  split; [reflexivity |].
  destruct (missing_uri_fails_at_once_and_is_retried
              (unreachable envNoUri) 5 initial)
    as (sfx & Ht & Hc & _ & _ & _ & _ & Hd & _);
    [lia | reflexivity | reflexivity | reflexivity |].
  exists sfx. split; [exact Ht |]. split; [exact Hc | exact Hd].
Defined.

Lemma exhausted_budget_exits_unless_production_witness :
  0 <= 5
  /\ allAttemptsFail (unreachable envDevelopment)
  /\ allAttemptsFail (unreachable envProduction)
  /\ timers connected = []
  /\ exited connected = None
  /\ NODE_ENV (env (unreachable envDevelopment)) = Some "development"
  /\ NODE_ENV (env (unreachable envProduction)) = Some "production"
  /\ exited (afterRetries (unreachable envDevelopment) 5 connected) = Some 1
  /\ exited (afterRetries (unreachable envProduction) 5 connected) = None.
Proof.
  split; [lia |]. split; [apply unreachable_always_fails |].
  split; [apply unreachable_always_fails |].
  split; [reflexivity |]. split; [reflexivity |].
  split; [reflexivity |]. split; [reflexivity |]. split.
  - destruct (exhausted_budget_exits_unless_production
                (unreachable envDevelopment) 5 connected someRuntime oneToken noAuthRoutes)
      as (_ & Hd & _);
      [lia | apply unreachable_always_fails | reflexivity | reflexivity |].
    apply Hd. reflexivity.
  - destruct (exhausted_budget_exits_unless_production
                (unreachable envProduction) 5 connected someRuntime oneToken noAuthRoutes)
      as (_ & _ & _ & Hp & _);
      [lia | apply unreachable_always_fails | reflexivity | reflexivity |].
    destruct (Hp eq_refl) as [He _]. exact He.
Defined.

Lemma graceful_shutdown_sequence_witness :
  ("SIGTERM" = "SIGTERM" \/ "SIGTERM" = "SIGINT")
  /\ exited busy = None
  /\ listening busy = true
  /\ forallb isRequest (timers busy) = true
  /\ exists sfx,
       trace (run (unreachable envProduction) 4
                  (deliver (unreachable envProduction) "SIGTERM" busy))
       = trace busy ++ sfx
       /\ actions sfx =
          [ Log (ShutdownStarted "SIGTERM"); ServerClose;
            RequestCompleted 2; RequestCompleted 1;
            Log HttpServerClosed; ConnectionClose false;
            Log MongoConnectionClosed; Log ShutdownCompleted; Exit 0 ].
Proof.
  split; [left; reflexivity |]. split; [reflexivity |].
  split; [reflexivity |]. split; [reflexivity |].
  destruct (graceful_shutdown_sequence (unreachable envProduction) "SIGTERM" busy)
    as (sfx & Ht & Ha & _);
    [left; reflexivity | reflexivity | reflexivity | reflexivity |].
  exists sfx. split; [exact Ht | exact Ha].
Defined.

Lemma close_is_idempotent_witness :
  readyState initial = 0
  /\ shutdownFrom (unreachable envProduction) [CloseDatabase] initial = (Done tt, initial)
  /\ timers connected = []
  /\ exited connected = None
  /\ fst (connectionCloseResult (unreachable envProduction)) = None
  /\ run (unreachable envProduction) 1
         (snd (shutdownFrom (unreachable envProduction)
                 [CloseDatabase; CloseDatabase] connected))
     = run (unreachable envProduction) 1
           (snd (shutdownFrom (unreachable envProduction) [CloseDatabase] connected)).
Proof.
  split; [reflexivity |]. split.
  - destruct (close_is_idempotent (unreachable envProduction) initial) as [H _].
    destruct (H eq_refl) as [H1 _]. exact H1.
  - split; [reflexivity |]. split; [reflexivity |]. split; [reflexivity |].
    destruct (close_is_idempotent (unreachable envProduction) connected) as [_ H].
    destruct (H eq_refl eq_refl eq_refl) as [H1 _]. exact H1.
Defined.

(** C9 fails on the variant of the error handler: in production it sends
    the message of an internal error to the client, where the handler that
    looks at the environment sends the fixed string. *)
Theorem error_handler_variant_leaks_message_in_production :
  isProduction envProduction = true
  /\ errorHandlerVariant driverError =
     mkResponse 500 (Js.Obj [ ("success", Js.Bool false);
                              ("error", Js.Str "connect ECONNREFUSED 10.0.0.5:27017") ])
  /\ errorHandler envProduction driverError =
     mkResponse 500 (Js.Obj [ ("success", Js.Bool false);
                              ("error", Js.Str "Internal Server Error") ]).
Proof.
  repeat split.
Qed.

(* ================================================================= *)
(** * Further properties of the HTTP surface *)

Lemma splitOn_not_nil (sep : ascii) (s : string) : splitOn sep s <> [].
Proof.
  destruct s as [| c rest]; simpl; [discriminate |].
  destruct (Ascii.eqb c sep); [discriminate |].
  destruct (splitOn sep rest); discriminate.
Qed.

(** Joining the pieces with the separator gives the string back. *)
Lemma concat_splitOn (sep : ascii) (s : string) :
  String.concat (String sep "") (splitOn sep s) = s.
Proof.
  induction s as [| c rest IH]; [reflexivity |].
  simpl. destruct (Ascii.eqb_spec c sep) as [-> | Hne].
  - pose proof (splitOn_not_nil sep rest) as Hn.
    destruct (splitOn sep rest) as [| p ps]; [contradiction |].
    change (String.concat (String sep "") ("" :: p :: ps))
      with (String sep (String.concat (String sep "") (p :: ps))).
    now rewrite IH.
  - pose proof (splitOn_not_nil sep rest) as Hn.
    destruct (splitOn sep rest) as [| p ps]; [contradiction |].
    destruct ps as [| q qs].
    + simpl in *. now rewrite IH.
    + change (String.concat (String sep "") (String c p :: q :: qs))
        with (String c (String.concat (String sep "") (p :: q :: qs))).
      now rewrite IH.
Qed.

Lemma splitOn_length (sep : ascii) (s : string) :
  List.length (splitOn sep s) = S (countChar sep s).
Proof.
  induction s as [| c rest IH]; [reflexivity |].
  simpl. destruct (Ascii.eqb c sep).
  - simpl. now rewrite IH.
  - pose proof (splitOn_not_nil sep rest) as Hn.
    destruct (splitOn sep rest) as [| p ps]; [contradiction |].
    simpl in *. exact IH.
Qed.

Lemma splitOn_pieces (sep : ascii) (s : string) :
  Forall (fun p => hasChar sep p = false) (splitOn sep s).
Proof.
  induction s as [| c rest IH]; simpl.
  - repeat constructor.
  - destruct (Ascii.eqb c sep) eqn:E.
    + constructor; [reflexivity | exact IH].
    + destruct (splitOn sep rest) as [| p ps].
      * constructor; [simpl; now rewrite E | constructor].
      * inversion IH as [| ? ? Hp Hps]; subst.
        constructor; [simpl; now rewrite E, Hp | exact Hps].
Qed.

(** X1. In production the origins allowed by CORS are exactly the
    comma-separated pieces of CLIENT_URL (joined with commas they give
    CLIENT_URL back, none of them contains a comma, there is one more
    piece than commas), and none at all when CLIENT_URL is unset. Outside
    production the origin is CLIENT_URL, and the wildcard when CLIENT_URL
    is unset or empty. *)
Theorem cors_origins_are_the_pieces_of_client_url (e : ProcessEnv) :
  (isProduction e = true ->
     exists l,
       corsOrigin e = OriginList l
       /\ (CLIENT_URL e = None -> l = [])
       /\ (forall s, CLIENT_URL e = Some s ->
             String.concat "," l = s
             /\ List.length l = S (countChar "," s)
             /\ Forall (fun p => hasChar "," p = false) l))
  /\ (isProduction e = false ->
      exists o,
        corsOrigin e = OriginString o
        /\ o <> ""
        /\ (CLIENT_URL e = Some o
            \/ (o = "*" /\ (CLIENT_URL e = None \/ CLIENT_URL e = Some "")))).
Proof.
  unfold corsOrigin. split; intros Hp; rewrite Hp.
  - destruct (CLIENT_URL e) as [s |].
    + exists (splitOn "," s). split; [reflexivity |]. split; [discriminate |].
      intros s' E. injection E as <-.
      split; [apply concat_splitOn |].
      split; [apply splitOn_length | apply splitOn_pieces].
    + exists []. split; [reflexivity |]. split; [reflexivity | discriminate].
  - unfold Js.orElse. destruct (CLIENT_URL e) as [s |].
    + destruct (String.eqb_spec s "") as [-> | Hne].
      * exists "*". split; [reflexivity |]. split; [discriminate |]. right. auto.
      * exists s. split; [reflexivity |]. split; [exact Hne |]. left. reflexivity.
    + exists "*". split; [reflexivity |]. split; [discriminate |]. right. auto.
Qed.

Section MoreSurface.

Variable penv : ProcessEnv.
Variable rt : Runtime.
Variable verifyToken : string -> option string.
Variable authRoutes : Handler.

(** X2. A request that reaches the 404 handler is answered 404. Outside
    production the body carries the message "Route not found: <method>
    <path>" and the stack of the error; in production it carries neither:
    the error text is "Internal Server Error" and the method and path are
    not echoed. *)
Theorem not_found_is_404_and_masked_in_production (req : Request) :
  exists e,
    notFound rt req = NextErr e
    /\ statusCode (errorHandler penv e) = 404
    /\ (isProduction penv = false ->
        body (errorHandler penv e) =
          Js.Obj [ ("success", Js.Bool false);
                   ("error", Js.Str ("Route not found: " ++ method req ++ " "
                                     ++ path req)%string);
                   ("stack", Js.Str (errorStack rt)) ])
    /\ (isProduction penv = true ->
        body (errorHandler penv e) =
          Js.Obj [ ("success", Js.Bool false);
                   ("error", Js.Str "Internal Server Error") ]).
Proof.
  eexists. split; [reflexivity |]. unfold errorHandler.
  split; [reflexivity |]. split; intros Hp; rewrite Hp; reflexivity.
Qed.

(** X3. In the two shorter variants of the entry point a request that
    reaches the 404 handler is answered 404 with the fixed body [{success:
    false, error: "Route not found"}], in every environment. The variant
    without a health route answers GET /health that way; the other one
    answers it 200 with the text "ok". *)
Theorem variant_not_found_and_health (req : Request) :
  (exists e,
     notFoundVariant req = NextErr e
     /\ errorHandlerVariant e =
        mkResponse 404 (Js.Obj [ ("success", Js.Bool false);
                                 ("error", Js.Str "Route not found") ]))
  /\ (isGet req "/health" = true ->
      appVariant (layersShort penv verifyToken authRoutes) req =
        mkResponse 404 (Js.Obj [ ("success", Js.Bool false);
                                 ("error", Js.Str "Route not found") ])
      /\ appVariant (layersShortWithHealth penv verifyToken authRoutes) req =
         mkResponse 200 (Js.Str "ok")).
Proof.
  split.
  - eexists. split; reflexivity.
  - intros H. routed H. split; reflexivity.
Qed.

End MoreSurface.

(** X4. An error that escapes always ends the process with code 1: an
    uncaught exception is logged once (the second listener never runs),
    an unhandled rejection is logged twice, by the listener that only logs
    and then by the one registered after it, which exits. The variant with
    two listeners logs each once and exits. *)
Theorem escaped_errors_exit_with_code_1 (err : string) :
  emitEvent "uncaughtException" err fatalListeners =
    [ConsoleError "Uncaught Exception:" err; ProcessExit 1]
  /\ emitEvent "unhandledRejection" err fatalListeners =
    [ ConsoleError "Unhandled Rejection:" err;
      ConsoleError "Unhandled Rejection:" err;
      ProcessExit 1 ]
  /\ emitEvent "uncaughtException" err fatalListenersCallbackVariant =
    [ConsoleError "Uncaught Exception:" err; ProcessExit 1]
  /\ emitEvent "unhandledRejection" err fatalListenersCallbackVariant =
    [ConsoleError "Unhandled Rejection:" err; ProcessExit 1].
Proof.
  repeat split.
Qed.

Section LoaderProperties.

Variable A : Type.
Variable parse : string -> Result (Parsed A) string.
Variable dataPath : string.


End LoaderProperties.

(* ================================================================= *)
(** * Further properties of the life cycle *)

Section MoreLifecycle.

Variable w : World.


(** An attempt that the driver accepts: one turn of the loop, and the
    process is connected with nothing pending. *)
Lemma attempt_succeeds (r : Z) (st : State) (uri : string) (lat : Z) (fuel : nat) :
  MONGO_URI (env w) = Some uri ->
  String.eqb uri "" = false ->
  timers st = [] ->
  exited st = None ->
  connectResult w (connects st) = (None, lat) ->
  run w (S fuel) (snd (connectToMongoDB w r st)) =
    mkState (Z.max (clock st) (clock st + lat)) []
      (trace st ++ [ (clock st, Enter r);
                     (clock st, MongooseConnect uri);
                     (Z.max (clock st) (clock st + lat), Log MongoConnected) ])
      None (S (connects st)) 1 (listening st).
Proof.
  intros Huri Hne Ht He Hres.
  rewrite (connect_with_uri w _ _ _ Huri Hne), Ht, Hres. simpl insertTimer.
  erewrite run_step; [| exact He | reflexivity].
  cbn [fire fst snd]. unfold connectSettled, bind, setReadyState, log, emit, tick.
  cbn [fst snd clock timers trace exited connects readyState listening].
  rewrite He, run_quiescent by reflexivity.
  rewrite <- app_assoc. reflexivity.
Qed.

Lemma In_actions_app (a : Action) (l1 l2 : list (Z * Action)) :
  In a (actions (l1 ++ l2)) -> In a (actions l1) \/ In a (actions l2).
Proof.
  unfold actions. rewrite map_app. apply in_app_or.
Qed.

Lemma budgetsFrom_succ (N : Z) (k : nat) :
  budgetsFrom N (S k) = N :: budgetsFrom (N - 1) k.
Proof.
  unfold budgetsFrom.
  change (seq 0 (S (S k))) with (0%nat :: seq 1 (S k)).
  rewrite <- seq_shift, map_cons, map_map. f_equal.
  - simpl. lia.
  - apply map_ext. intros i. lia.
Qed.

(** X7. If the driver refuses the first [k] attempts and accepts the next
    one, with [k] within the budget, the connection is attempted exactly
    [k + 1] times, with the budgets N, N-1, ..., N-k and [k] timers of
    5000 ms; the process is then connected, has not exited, never reports
    the budget as used up, and makes no further attempt however long the
    loop runs. *)
Theorem connection_succeeds_after_failures (k : nat) (N : Z) (st : State) :
  uriSet w = true ->
  Z.of_nat k <= N ->
  timers st = [] ->
  exited st = None ->
  (forall i, (i < k)%nat -> fst (connectResult w (connects st + i)) <> None) ->
  fst (connectResult w (connects st + k)) = None ->
  exists sfx,
    trace (run w (S (2 * k)) (snd (connectToMongoDB w N st))) = trace st ++ sfx
    /\ budgets sfx = budgetsFrom N k
    /\ List.length (filter isMongooseConnect sfx) = S k
    /\ timeoutDelays sfx = repeat 5000 k
    /\ In (Log MongoConnected) (actions sfx)
    /\ ~ In (LogError RetriesExhausted) (actions sfx)
    /\ readyState (run w (S (2 * k)) (snd (connectToMongoDB w N st))) = 1
    /\ exited (run w (S (2 * k)) (snd (connectToMongoDB w N st))) = None
    /\ timers (run w (S (2 * k)) (snd (connectToMongoDB w N st))) = []
    /\ (forall more,
          run w (S (2 * k) + more) (snd (connectToMongoDB w N st)) =
          run w (S (2 * k)) (snd (connectToMongoDB w N st))).
Proof.
  intros Hu. destruct (uriSet_true w Hu) as (uri & Huri & Hne).
  revert N st. induction k as [| k IH]; intros N st HN Ht He Hfail Hok.
  - rewrite Nat.add_0_r in Hok.
    destruct (connectResult w (connects st)) as [rej lat] eqn:Hres.
    simpl in Hok. subst rej.
    assert (E : forall fuel, run w (S fuel) (snd (connectToMongoDB w N st)) =
                  mkState (Z.max (clock st) (clock st + lat)) []
                    (trace st ++ [ (clock st, Enter N);
                                   (clock st, MongooseConnect uri);
                                   (Z.max (clock st) (clock st + lat), Log MongoConnected) ])
                    None (S (connects st)) 1 (listening st)).
    { intros fuel. apply attempt_succeeds; assumption. }
    change (S (2 * 0)) with 1%nat. rewrite E.
    eexists. split; [cbn [trace]; reflexivity |].
    repeat split.
    + unfold budgetsFrom. simpl. f_equal. lia.
    + simpl. auto.
    + simpl. intros [H | [H | [H | []]]]; discriminate H.
    + intros more. change (1 + more)%nat with (S more). apply E.
  - pose proof (Hfail 0%nat ltac:(lia)) as Hf. rewrite Nat.add_0_r in Hf.
    destruct (connectResult w (connects st)) as [[err |] lat] eqn:Hres;
      [| now elim Hf].
    pose proof (fun fuel =>
                  attempt_fails_uri w N st uri err lat fuel Huri Hne Ht He Hres
                    ltac:(lia)) as E.
    cbv zeta in E.
    match type of E with
    | forall fuel, _ = run w fuel (snd (connectToMongoDB w _ ?s)) => set (st' := s) in *
    end.
    destruct (IH (N - 1) st') as (sfx' & Rt & Rb & Rc & Rd & Rin & Rnot & Rrs & Re & Rti & Rmore).
    + lia.
    + reflexivity.
    + reflexivity.
    + intros i Hi. unfold st'. cbn [connects].
      replace (S (connects st) + i)%nat with (connects st + S i)%nat by lia.
      apply Hfail. lia.
    + unfold st'. cbn [connects].
      replace (S (connects st) + k)%nat with (connects st + S k)%nat by lia.
      exact Hok.
    + replace (S (2 * S k)) with (S (S (S (2 * k)))) by lia.
      rewrite E.
      eexists. split; [| repeat split].
      * rewrite Rt. unfold st'. cbn [trace]. rewrite <- app_assoc. reflexivity.
      * unfold budgets in *. rewrite flat_map_app, Rb, budgetsFrom_succ. reflexivity.
      * rewrite filter_app, length_app, Rc. reflexivity.
      * unfold timeoutDelays in *. rewrite flat_map_app, Rd. reflexivity.
      * apply In_actions_app_r. exact Rin.
      * intros Hin. apply In_actions_app in Hin. destruct Hin as [Hin | Hin].
        -- simpl in Hin.
           destruct Hin as [H | [H | [H | [H | [H | []]]]]]; discriminate H.
        -- exact (Rnot Hin).
      * exact Rrs.
      * exact Re.
      * exact Rti.
      * intros more.
        replace (S (S (S (2 * k))) + more)%nat with (S (S (S (2 * k) + more))) by lia.
        rewrite E. apply Rmore.
Qed.

Lemma exhaustion_clock (n : nat) :
  (uriSet w = true -> allAttemptsFail w) ->
  forall st, timers st = [] -> exited st = None ->
  clock st + 5000 * Z.of_nat n <= clock (afterRetries w (Z.of_nat n) st)
  /\ (uriSet w = false ->
      clock (afterRetries w (Z.of_nat n) st) = clock st + 5000 * Z.of_nat n
      /\ (isProduction (env w) = false ->
          In (clock st + 5000 * Z.of_nat n, Exit 1)
             (trace (afterRetries w (Z.of_nat n) st)))).
Proof.
  intros Hfail. unfold afterRetries, turns. rewrite Nat2Z.id.
  destruct (uriSet w) eqn:Hu.
  - destruct (uriSet_true w Hu) as (uri & Huri & Hne).
    replace (2 * n + 1)%nat with (S (2 * n)) by lia.
    induction n as [| n IH]; intros st Ht He;
      pose proof (Hfail eq_refl (connects st)) as Hf;
      destruct (connectResult w (connects st)) as [[err |] lat] eqn:Hres;
      try (now elim Hf).
    + pose proof (last_attempt_fails_uri w (Z.of_nat 0) st uri err lat 0
                    Huri Hne Ht He Hres) as E.
      cbv zeta in E. change (S (2 * 0)) with 1%nat. rewrite E by (simpl; lia).
      split; [| intros; discriminate].
      destruct (isProduction (env w)); cbn [clock]; lia.
    + pose proof (attempt_fails_uri w (Z.of_nat (S n)) st uri err lat (S (2 * n))
                    Huri Hne Ht He Hres) as E.
      cbv zeta in E. replace (S (2 * S n)) with (S (S (S (2 * n)))) by lia.
      rewrite E by lia. clear E.
      replace (Z.of_nat (S n) - 1) with (Z.of_nat n) by lia.
      match goal with |- context [connectToMongoDB w _ ?s] => set (st' := s) end.
      destruct (IH st') as [Hle _]; [reflexivity | reflexivity |].
      split; [| intros; discriminate].
      unfold st' in Hle at 1. cbn [clock] in Hle. lia.
  - induction n as [| n IH]; intros st Ht He.
    + pose proof (last_attempt_fails_without_uri w (Z.of_nat 0) st 0 Hu Ht He) as E.
      cbv zeta in E. rewrite E by (simpl; lia).
      destruct (isProduction (env w)); cbn [clock trace].
      * split; [lia |]. intros _. split; [lia | discriminate].
      * split; [lia |]. intros _. split; [lia |]. intros _.
        apply in_or_app. right. left. f_equal. lia.
    + rewrite (attempt_fails_without_uri w (Z.of_nat (S n)) st n Hu Ht He) by lia.
      replace (Z.of_nat (S n) - 1) with (Z.of_nat n) by lia.
      match goal with |- context [connectToMongoDB w _ ?s] => set (st' := s) end.
      destruct (IH st') as [Hle Heq]; [reflexivity | reflexivity |].
      destruct (Heq eq_refl) as [Hc Hin].
      unfold st' in Hle at 1, Hc at 2, Hin at 1. cbn [clock] in Hle, Hc, Hin.
      split; [lia |]. intros _. split; [lia |].
      intros Hp.
      replace (clock st + 5000 * Z.of_nat (S n))
        with (Z.max (clock st) (clock st + 5000) + 5000 * Z.of_nat n) by lia.
      exact (Hin Hp).
Qed.

(** X8. Using up a budget of N takes at least 5000 ms per retry. Without
    a URI it takes exactly 5000 * N ms, and outside production the process
    exits with code 1 at that moment: 25 seconds after the start with the
    budget of the source. *)
Theorem exhaustion_takes_five_seconds_per_retry (N : Z) (st : State) :
  0 <= N ->
  (uriSet w = true -> allAttemptsFail w) ->
  timers st = [] ->
  exited st = None ->
  clock st + 5000 * N <= clock (afterRetries w N st)
  /\ (uriSet w = false ->
      clock (afterRetries w N st) = clock st + 5000 * N
      /\ (isProduction (env w) = false ->
          In (clock st + 5000 * N, Exit 1) (trace (afterRetries w N st)))).
Proof.
  intros HN Hfail Ht He.
  pose proof (exhaustion_clock (Z.to_nat N) Hfail st Ht He) as H.
  rewrite Z2Nat.id in H by exact HN. exact H.
Qed.

End MoreLifecycle.

Section MoreShutdown.

Variable w : World.

Lemma handlerOf_signal (sig : string) :
  sig = "SIGTERM" \/ sig = "SIGINT" ->
  handlerOf sig (signalHandlers w) = Some (gracefulShutdown w sig).
Proof.
  intros [-> | ->]; reflexivity.
Qed.

(** X9. The shutdown is not guarded against a second signal. If a second
    termination signal arrives while the first shutdown waits for the
    requests in flight, its handler finds the listener closed, closes the
    database connection at once and exits with code 0 as soon as the
    connection is closed: the requests still in flight are never
    completed. *)
Theorem second_signal_closes_database_before_requests_finish
  (sig1 sig2 : string) (st : State) (d : Z) (id : nat) (rest : list (Z * Callback)) :
  sig1 = "SIGTERM" \/ sig1 = "SIGINT" ->
  sig2 = "SIGTERM" \/ sig2 = "SIGINT" ->
  exited st = None ->
  listening st = true ->
  readyState st <> 0 ->
  timers st = (d, RequestDone id) :: rest ->
  forallb isRequest rest = true ->
  fst (connectionCloseResult w) = None ->
  0 <= snd (connectionCloseResult w) ->
  clock st + snd (connectionCloseResult w) < d ->
  let final := run w 1 (deliver w sig2 (deliver w sig1 st)) in
  exited final = Some 0
  /\ clock final < d
  /\ In (d, RequestDone id) (timers final)
  /\ exists sfx,
       trace final = trace st ++ sfx
       /\ actions sfx =
          [ Log (ShutdownStarted sig1); ServerClose;
            Log (ShutdownStarted sig2); ConnectionClose false;
            Log MongoConnectionClosed; Log ShutdownCompleted; Exit 0 ].
Proof.
  intros Hs1 Hs2 He Hl Hrs Ht Hall Hok Hlat Hd final.
  assert (Hin1 : In sig1 signals).
  { destruct Hs1 as [-> | ->]; simpl; auto. }
  assert (Hreq : forallb isRequest (timers st) = true).
  { rewrite Ht. exact Hall. }
  assert (F : run w 1 (deliver w sig2 (deliver w sig1 st)) =
              mkState (clock st + snd (connectionCloseResult w))
                ((d, RequestDone id) :: rest ++
                 [(drainTime st,
                   ServerClosed (serverCloseResult w) [CloseDatabase; Complete])])
                (trace st ++
                 [ (clock st, Log (ShutdownStarted sig1));
                   (clock st, ServerClose);
                   (clock st, Log (ShutdownStarted sig2));
                   (clock st, ConnectionClose false);
                   (clock st + snd (connectionCloseResult w), Log MongoConnectionClosed);
                   (clock st + snd (connectionCloseResult w), Log ShutdownCompleted);
                   (clock st + snd (connectionCloseResult w), Exit 0) ])
                (Some 0) (connects st) 0 false).
  { rewrite (deliver_running w sig1 st Hin1 He Hl Hreq).
    unfold deliver. cbn [exited]. rewrite (handlerOf_signal sig2 Hs2).
    unfold gracefulShutdown, bind, log, emit. cbn [shutdownFrom].
    unfold bind, get, emit, setReadyState, schedule.
    cbn [fst snd clock timers trace exited connects readyState listening].
    assert (Hz : (readyState st =? 0) = false) by (apply Z.eqb_neq; exact Hrs).
    rewrite Hz. cbn [negb].
    cbn [fst snd clock timers trace exited connects readyState listening].
    rewrite Ht. rewrite <- app_comm_cons. cbn [insertTimer].
    assert (Hcmp : (d <=? clock st + snd (connectionCloseResult w)) = false) by lia.
    rewrite Hcmp.
    erewrite run_step; [| reflexivity | reflexivity].
    rewrite Hok. cbn [fire]. unfold tick, bind, setReadyState, log, emit, exit.
    cbn [shutdownFrom]. unfold bind, log, emit, exit.
    cbn [fst snd clock timers trace exited connects readyState listening].
    rewrite run_quiescent by reflexivity.
    rewrite Z.max_r by lia. rewrite <- !app_assoc. reflexivity. }
  unfold final. rewrite F.
  cbn [fst snd clock timers trace exited connects readyState listening].
  split; [reflexivity |]. split; [lia |]. split; [left; reflexivity |].
  eexists. split; reflexivity.
Qed.

(** X10. A termination signal that arrives while a retry of the
    connection is pending shuts the process down in the same turn of the
    loop, with exit code 0: the listener is closed, the connection, being
    closed, is left alone, and the pending retry never runs, so no further
    connection is attempted. *)
Theorem shutdown_abandons_pending_retry
  (sig : string) (st : State) (due r : Z) :
  sig = "SIGTERM" \/ sig = "SIGINT" ->
  exited st = None ->
  listening st = true ->
  readyState st = 0 ->
  timers st = [(due, RetryConnect r)] ->
  clock st < due ->
  serverCloseResult w = None ->
  let final := run w 1 (deliver w sig st) in
  exited final = Some 0
  /\ clock final = clock st
  /\ connects final = connects st
  /\ trace final =
     trace st ++ [ (clock st, Log (ShutdownStarted sig));
                   (clock st, ServerClose);
                   (clock st, Log HttpServerClosed);
                   (clock st, Log ShutdownCompleted);
                   (clock st, Exit 0) ]
  /\ (forall more, run w (1 + more) (deliver w sig st) = final).
Proof.
  intros Hs He Hl Hrs Ht Hdue Hok final.
  assert (E : deliver w sig st =
              mkState (clock st)
                [ (clock st, ServerClosed None [CloseDatabase; Complete]);
                  (due, RetryConnect r) ]
                (trace st ++ [ (clock st, Log (ShutdownStarted sig));
                               (clock st, ServerClose) ])
                None (connects st) 0 false).
  { unfold deliver. rewrite He, (handlerOf_signal sig Hs).
    unfold gracefulShutdown, bind, log, emit. cbn [shutdownFrom].
    unfold bind, get, emit, setListening, schedule, drainTime.
    cbn [fst snd clock timers trace exited connects readyState listening].
    rewrite Hl.
    cbn [fst snd clock timers trace exited connects readyState listening].
    rewrite Ht, Hok, He, Hrs. cbn [filter isRequest snd map fold_left insertTimer].
    assert (Hcmp : (due <=? clock st) = false) by lia.
    rewrite Hcmp, <- app_assoc. reflexivity. }
  assert (F : forall fuel, run w (S fuel) (deliver w sig st) =
              mkState (clock st) [(due, RetryConnect r)]
                (trace st ++ [ (clock st, Log (ShutdownStarted sig));
                               (clock st, ServerClose);
                               (clock st, Log HttpServerClosed);
                               (clock st, Log ShutdownCompleted);
                               (clock st, Exit 0) ])
                (Some 0) (connects st) 0 false).
  { intros fuel. rewrite E.
    erewrite run_step; [| reflexivity | reflexivity].
    cbn [fire]. unfold tick, bind, log, emit. cbn [shutdownFrom].
    unfold bind, get, log, emit, exit.
    cbn [fst snd clock timers trace exited connects readyState listening Z.eqb negb].
    rewrite run_quiescent by reflexivity.
    rewrite Z.max_id, <- !app_assoc. reflexivity. }
  unfold final. rewrite F.
  cbn [fst snd clock timers trace exited connects readyState listening].
  repeat split. intros more. apply F.
Qed.


End MoreShutdown.

(* ================================================================= *)
(** * The environment variables *)

Lemma isProduction_false (e : ProcessEnv) :
  NODE_ENV e <> Some "production" -> isProduction e = false.
Proof.
  unfold isProduction. intros H. destruct (NODE_ENV e) as [s |]; [| reflexivity].
  destruct (String.eqb_spec s "production") as [-> | Hne]; [now elim H | reflexivity].
Qed.


(** X13. A variable set to the empty string is treated like an unset one:
    the port is 5001, the environment is development, the version is
    1.0.0, the URI counts as missing (the driver is not called) and,
    outside production, the CORS origin is the wildcard. The one
    exception is CLIENT_URL in production: empty, it gives one empty
    origin; unset, it gives none. *)
Theorem empty_variable_counts_as_unset (w : World) (rt : Runtime) (req : Request) :
  (PORT_var (env w) = Some "" -> PORT (env w) = Js.Num 5001)
  /\ (NODE_ENV (env w) = Some "" ->
      environmentName (env w) = "development" /\ isProduction (env w) = false)
  /\ (npm_package_version (env w) = Some "" ->
      match root (env w) req with
      | Respond r => Js.get (body r) "version" = Js.Str "1.0.0"
      | _ => False
      end)
  /\ (MONGO_URI (env w) = Some "" ->
      uriSet w = false
      /\ forall r st,
           filter isMongooseConnect (trace (snd (connectToMongoDB w r st)))
           = filter isMongooseConnect (trace st))
  /\ (CLIENT_URL (env w) = Some "" ->
      corsOrigin (env w) =
        if isProduction (env w) then OriginList [""] else OriginString "*")
  /\ (CLIENT_URL (env w) = None ->
      corsOrigin (env w) =
        if isProduction (env w) then OriginList [] else OriginString "*").
Proof.
  split; [| split; [| split; [| split; [| split]]]].
  - intros H. unfold PORT. rewrite H. reflexivity.
  - intros H. unfold environmentName, isProduction. rewrite H. split; reflexivity.
  - intros H. unfold root. cbn. rewrite H. reflexivity.
  - intros H.
    assert (Hu : uriSet w = false).
    { unfold uriSet. rewrite H. reflexivity. }
    split; [exact Hu |]. intros r st.
    rewrite (connect_without_uri w r st Hu).
    destruct (Z_lt_le_dec 0 r) as [Hr | Hr].
    + rewrite connectFailed_retry by exact Hr. cbn [snd trace].
      rewrite <- app_assoc, filter_app. cbn. apply app_nil_r.
    + rewrite connectFailed_exhausted by exact Hr.
      destruct (isProduction (env w)); cbn [snd trace];
        rewrite <- app_assoc, filter_app; cbn; apply app_nil_r.
  - intros H. unfold corsOrigin. rewrite H.
    destruct (isProduction (env w)); reflexivity.
  - intros H. unfold corsOrigin. rewrite H.
    destruct (isProduction (env w)); reflexivity.
Qed.

(* ================================================================= *)
(** * More concrete runs *)

Lemma cors_origins_are_the_pieces_of_client_url_witness :
  isProduction envTwoOrigins = true
  /\ isProduction envBare = false
  /\ corsOrigin envTwoOrigins = OriginList ["https://a.example"; "https://b.example"]
  /\ exists o, corsOrigin envBare = OriginString o.
Proof.
  split; [reflexivity |]. split; [reflexivity |]. split; [reflexivity |].
  destruct (cors_origins_are_the_pieces_of_client_url envBare) as [_ H].
  destruct (H eq_refl) as (o & Ho & _). exists o. exact Ho.
Defined.

Lemma not_found_is_404_and_masked_in_production_witness :
  isProduction envProduction = true
  /\ exists e,
       notFound someRuntime (getRequest "/nowhere" []) = NextErr e
       /\ body (errorHandler envProduction e) =
          Js.Obj [ ("success", Js.Bool false);
                   ("error", Js.Str "Internal Server Error") ].
Proof.
  split; [reflexivity |].
  destruct (not_found_is_404_and_masked_in_production envProduction someRuntime
              (getRequest "/nowhere" [])) as (e & He & _ & _ & Hp).
  exists e. split; [exact He | exact (Hp eq_refl)].
Defined.

Lemma variant_not_found_and_health_witness :
  isGet (getRequest "/health" []) "/health" = true
  /\ appVariant (layersShort envProduction oneToken noAuthRoutes)
                (getRequest "/health" [])
     = mkResponse 404 (Js.Obj [ ("success", Js.Bool false);
                                ("error", Js.Str "Route not found") ]).
Proof.
  split; [reflexivity |].
  destruct (variant_not_found_and_health envProduction oneToken noAuthRoutes
              (getRequest "/health" [])) as [_ H].
  destruct (H eq_refl) as [Ha _]. exact Ha.
Defined.



Lemma connection_succeeds_after_failures_witness :
  uriSet (flaky envDevelopment) = true
  /\ Z.of_nat 2 <= 5
  /\ timers initial = []
  /\ exited initial = None
  /\ fst (connectResult (flaky envDevelopment) (connects initial + 2)) = None
  /\ exists sfx,
       trace (run (flaky envDevelopment) 5
                  (snd (connectToMongoDB (flaky envDevelopment) 5 initial)))
       = trace initial ++ sfx
       /\ budgets sfx = [5; 4; 3]
       /\ timeoutDelays sfx = [5000; 5000].
Proof.
  split; [reflexivity |]. split; [simpl; lia |]. split; [reflexivity |].
  split; [reflexivity |]. split; [reflexivity |].
  destruct (connection_succeeds_after_failures (flaky envDevelopment) 2 5 initial)
    as (sfx & Ht & Hb & _ & Hd & _).
  - reflexivity.
  - simpl. lia.
  - reflexivity.
  - reflexivity.
  - intros i Hi. destruct i as [| [| i]]; simpl; [discriminate | discriminate | lia].
  - reflexivity.
  - exists sfx. split; [exact Ht |]. split; [exact Hb | exact Hd].
Defined.

Lemma exhaustion_takes_five_seconds_per_retry_witness :
  0 <= 5
  /\ uriSet (unreachable envNoUri) = false
  /\ isProduction (env (unreachable envNoUri)) = false
  /\ timers initial = []
  /\ exited initial = None
  /\ In (25000, Exit 1) (trace (afterRetries (unreachable envNoUri) 5 initial)).
Proof.
  split; [lia |]. split; [reflexivity |]. split; [reflexivity |].
  split; [reflexivity |]. split; [reflexivity |].
  destruct (exhaustion_takes_five_seconds_per_retry (unreachable envNoUri) 5 initial)
    as [_ H].
  - lia.
  - intros Hu. discriminate Hu.
  - reflexivity.
  - reflexivity.
  - destruct (H eq_refl) as [_ Hin]. exact (Hin eq_refl).
Defined.

Lemma second_signal_closes_database_before_requests_finish_witness :
  exited busy = None
  /\ listening busy = true
  /\ readyState busy <> 0
  /\ timers busy = (120, RequestDone 2) :: [(150, RequestDone 1)]
  /\ clock busy + snd (connectionCloseResult (unreachable envProduction)) < 120
  /\ exited (run (unreachable envProduction) 1
               (deliver (unreachable envProduction) "SIGINT"
                  (deliver (unreachable envProduction) "SIGTERM" busy)))
     = Some 0.
Proof.
  split; [reflexivity |]. split; [reflexivity |]. split; [discriminate |].
  split; [reflexivity |]. split; [simpl; lia |].
  destruct (second_signal_closes_database_before_requests_finish
              (unreachable envProduction) "SIGTERM" "SIGINT" busy 120 2
              [(150, RequestDone 1)]) as [H _].
  - left; reflexivity.
  - right; reflexivity.
  - reflexivity.
  - reflexivity.
  - discriminate.
  - reflexivity.
  - reflexivity.
  - reflexivity.
  - simpl. lia.
  - simpl. lia.
  - exact H.
Defined.

Lemma shutdown_abandons_pending_retry_witness :
  exited degraded = None
  /\ listening degraded = true
  /\ readyState degraded = 0
  /\ timers degraded = [(4000, RetryConnect 3)]
  /\ clock degraded < 4000
  /\ serverCloseResult (unreachable envProduction) = None
  /\ exited (run (unreachable envProduction) 1
               (deliver (unreachable envProduction) "SIGTERM" degraded))
     = Some 0.
Proof.
  split; [reflexivity |]. split; [reflexivity |]. split; [reflexivity |].
  split; [reflexivity |]. split; [simpl; lia |]. split; [reflexivity |].
  destruct (shutdown_abandons_pending_retry (unreachable envProduction)
              "SIGTERM" degraded 4000 3) as [H _].
  - left; reflexivity.
  - reflexivity.
  - reflexivity.
  - reflexivity.
  - reflexivity.
  - simpl. lia.
  - reflexivity.
  - exact H.
Defined.



Lemma empty_variable_counts_as_unset_witness :
  PORT_var (env (unreachable envBlank)) = Some ""
  /\ MONGO_URI (env (unreachable envBlank)) = Some ""
  /\ PORT (env (unreachable envBlank)) = Js.Num 5001
  /\ uriSet (unreachable envBlank) = false.
Proof.
  split; [reflexivity |]. split; [reflexivity |].
  destruct (empty_variable_counts_as_unset (unreachable envBlank) someRuntime
              (getRequest "/" [])) as (Hp & _ & _ & Hu & _).
  split; [exact (Hp eq_refl) |].
  destruct (Hu eq_refl) as [H _]. exact H.
Defined.
